(** * Authboss: identity cache and remember-me protocol

    A shallow embedding of [context.go] (the per-request identity cache)
    and [remember/remember.go] (the remember-me module) of authboss,
    together with the properties of the persistent-login protocol:
    token issuance, single-use consumption, rotation and revocation.

    Go strings are [string], byte slices are [list byte], Go's pair
    returns [(value, err)] are pairs whose error component is an
    [option error] ([None] is Go's [nil]).  Side effects (storage calls,
    cookie and session writes, log lines, reads of the random source)
    are threaded through an explicit [World]: the response writer of the
    Go code is the trace of that world, and the [*Authboss] handle with
    its configured storage is the [ServerStorer] instance in scope. *)

From Stdlib Require Import List String Ascii ZArith Lia Bool.
From Stdlib.Strings Require Import Byte.
Import ListNotations.

Local Open Scope string_scope.
Local Open Scope list_scope.
Local Open Scope Z_scope.

(* ================================================================== *)
(** ** Bytes *)

Definition Z_of_byte (b : byte) : Z := Z.of_N (Byte.to_N b).

(** Go's conversion [byte(v)] of an unsigned integer: truncation to the
    low eight bits. *)
Definition byte_of_Z (z : Z) : byte :=
  match Byte.of_N (Z.to_N (z mod 256)) with
  | Some b => b
  | None => x00
  end.

(** [bytes.IndexByte]: index of the first instance of [c] in [b], or -1. *)
Fixpoint IndexByte (b : list byte) (c : byte) : Z :=
  match b with
  | [] => -1
  | x :: rest =>
      if Byte.eqb x c then 0
      else let i := IndexByte rest c in
           if i <? 0 then -1 else i + 1
  end.

(* ================================================================== *)
(** ** encoding/base64

    The two encodings of Go's standard library that the module uses:
    [StdEncoding] and [URLEncoding], both padded with ['='] and both
    non-strict. *)

Module base64.

Record Encoding : Type := NewEncoding { encode : string }.

Definition encodeStd : string :=
  "ABCDEFGHIJKLMNOPQRSTUVWXYZabcdefghijklmnopqrstuvwxyz0123456789+/".
Definition encodeURL : string :=
  "ABCDEFGHIJKLMNOPQRSTUVWXYZabcdefghijklmnopqrstuvwxyz0123456789-_".

Definition StdEncoding : Encoding := NewEncoding encodeStd.
Definition URLEncoding : Encoding := NewEncoding encodeURL.

Definition StdPadding : ascii := "="%char.

(** [enc.encode[i]] *)
Definition encodeAt (enc : Encoding) (i : Z) : ascii :=
  match String.get (Z.to_nat i) (encode enc) with
  | Some c => c
  | None => StdPadding
  end.

Fixpoint indexIn (c : ascii) (alphabet : string) (i : Z) : Z :=
  match alphabet with
  | EmptyString => 255
  | String a rest => if Ascii.eqb a c then i else indexIn c rest (i + 1)
  end.

(** [enc.decodeMap[c]]: the position of [c] in the alphabet, 0xFF for a
    character outside of it. *)
Definition decodeMap (enc : Encoding) (c : ascii) : Z :=
  indexIn c (encode enc) 0.

Definition sextet (val : Z) (shift : Z) : Z :=
  Z.land (Z.shiftr val shift) 63.

(** [Encoding.Encode]: three source bytes become four characters; a
    remainder of one or two bytes is padded. *)
Fixpoint Encode (enc : Encoding) (src : list byte) : list ascii :=
  match src with
  | [] => []
  | [b0] =>
      let val := Z.shiftl (Z_of_byte b0) 16 in
      [encodeAt enc (sextet val 18); encodeAt enc (sextet val 12);
       StdPadding; StdPadding]
  | [b0; b1] =>
      let val := Z.lor (Z.shiftl (Z_of_byte b0) 16)
                       (Z.shiftl (Z_of_byte b1) 8) in
      [encodeAt enc (sextet val 18); encodeAt enc (sextet val 12);
       encodeAt enc (sextet val 6); StdPadding]
  | b0 :: b1 :: b2 :: rest =>
      let val := Z.lor (Z.shiftl (Z_of_byte b0) 16)
                       (Z.lor (Z.shiftl (Z_of_byte b1) 8) (Z_of_byte b2)) in
      encodeAt enc (sextet val 18) :: encodeAt enc (sextet val 12) ::
      encodeAt enc (sextet val 6) :: encodeAt enc (sextet val 0) ::
      Encode enc rest
  end.

Definition EncodeToString (enc : Encoding) (src : list byte) : string :=
  string_of_list_ascii (Encode enc src).

Definition isNewline (c : ascii) : bool :=
  Ascii.eqb c "010"%char || Ascii.eqb c "013"%char.

Definition isPad (c : ascii) : bool := Ascii.eqb c StdPadding.

Definition inAlphabet (enc : Encoding) (c : ascii) : bool :=
  negb (decodeMap enc c =? 255).

(** The value assembled from the (up to four) decoded characters of one
    quantum. *)
Definition quantumVal (d0 d1 d2 d3 : Z) : Z :=
  Z.lor (Z.shiftl d0 18) (Z.lor (Z.shiftl d1 12) (Z.lor (Z.shiftl d2 6) d3)).

(** [Encoding.decodeQuantum], iterated over an input from which the
    ignored line breaks have been removed.  A quantum is four alphabet
    characters; the last one may end in one or two padding characters,
    after which nothing may follow.  [None] is [CorruptInputError]. *)
Fixpoint decodeQuanta (enc : Encoding) (src : list ascii)
  : option (list byte) :=
  match src with
  | [] => Some []
  | c0 :: c1 :: c2 :: c3 :: rest =>
      if inAlphabet enc c0 && inAlphabet enc c1 then
        let d0 := decodeMap enc c0 in
        let d1 := decodeMap enc c1 in
        if inAlphabet enc c2 then
          let d2 := decodeMap enc c2 in
          if inAlphabet enc c3 then
            let val := quantumVal d0 d1 d2 (decodeMap enc c3) in
            match decodeQuanta enc rest with
            | Some out =>
                Some (byte_of_Z (Z.shiftr val 16) :: byte_of_Z (Z.shiftr val 8)
                        :: byte_of_Z val :: out)
            | None => None
            end
          else if isPad c3 then
            match rest with
            | [] =>
                let val := quantumVal d0 d1 d2 0 in
                Some [byte_of_Z (Z.shiftr val 16); byte_of_Z (Z.shiftr val 8)]
            | _ :: _ => None
            end
          else None
        else if isPad c2 && isPad c3 then
          match rest with
          | [] =>
              let val := quantumVal d0 d1 0 0 in
              Some [byte_of_Z (Z.shiftr val 16)]
          | _ :: _ => None
          end
        else None
      else None
  | _ => None
  end.

(** An alphabet fit for an encoding: 64 distinct characters, none of
    them the padding character or a line break. *)
Definition wellFormed (enc : Encoding) : bool :=
  (decodeMap enc StdPadding =? 255) &&
  forallb (fun i => (decodeMap enc (encodeAt enc i) =? i) &&
                    negb (isNewline (encodeAt enc i)))
          (map Z.of_nat (seq 0 64)).

(** [Encoding.DecodeString]; carriage returns and line feeds in the
    input are skipped. *)
Definition DecodeString (enc : Encoding) (s : string) : option (list byte) :=
  decodeQuanta enc
    (filter (fun c => negb (isNewline c)) (list_ascii_of_string s)).

End base64.

(* ================================================================== *)
(** ** crypto/sha512

    SHA-512 as Go's standard library computes it (FIPS 180-4), on
    64-bit words held in [Z]. *)

Module sha512.

Definition mask64 : Z := Z.ones 64.

Definition add64 (a b : Z) : Z := (a + b) mod 2 ^ 64.

Definition rotr (x n : Z) : Z :=
  Z.lor (Z.shiftr x n) (Z.land (Z.shiftl x (64 - n)) mask64).

Definition Ch (x y z : Z) : Z :=
  Z.lxor (Z.land x y) (Z.land (Z.lxor x mask64) z).

Definition Maj (x y z : Z) : Z :=
  Z.lxor (Z.land x y) (Z.lxor (Z.land x z) (Z.land y z)).

Definition bsig0 (x : Z) : Z :=
  Z.lxor (rotr x 28) (Z.lxor (rotr x 34) (rotr x 39)).
Definition bsig1 (x : Z) : Z :=
  Z.lxor (rotr x 14) (Z.lxor (rotr x 18) (rotr x 41)).
Definition ssig0 (x : Z) : Z :=
  Z.lxor (rotr x 1) (Z.lxor (rotr x 8) (Z.shiftr x 7)).
Definition ssig1 (x : Z) : Z :=
  Z.lxor (rotr x 19) (Z.lxor (rotr x 61) (Z.shiftr x 6)).

Definition _K : list Z :=
  [
   0x428a2f98d728ae22; 0x7137449123ef65cd; 0xb5c0fbcfec4d3b2f;
   0xe9b5dba58189dbbc; 0x3956c25bf348b538; 0x59f111f1b605d019;
   0x923f82a4af194f9b; 0xab1c5ed5da6d8118; 0xd807aa98a3030242;
   0x12835b0145706fbe; 0x243185be4ee4b28c; 0x550c7dc3d5ffb4e2;
   0x72be5d74f27b896f; 0x80deb1fe3b1696b1; 0x9bdc06a725c71235;
   0xc19bf174cf692694; 0xe49b69c19ef14ad2; 0xefbe4786384f25e3;
   0x0fc19dc68b8cd5b5; 0x240ca1cc77ac9c65; 0x2de92c6f592b0275;
   0x4a7484aa6ea6e483; 0x5cb0a9dcbd41fbd4; 0x76f988da831153b5;
   0x983e5152ee66dfab; 0xa831c66d2db43210; 0xb00327c898fb213f;
   0xbf597fc7beef0ee4; 0xc6e00bf33da88fc2; 0xd5a79147930aa725;
   0x06ca6351e003826f; 0x142929670a0e6e70; 0x27b70a8546d22ffc;
   0x2e1b21385c26c926; 0x4d2c6dfc5ac42aed; 0x53380d139d95b3df;
   0x650a73548baf63de; 0x766a0abb3c77b2a8; 0x81c2c92e47edaee6;
   0x92722c851482353b; 0xa2bfe8a14cf10364; 0xa81a664bbc423001;
   0xc24b8b70d0f89791; 0xc76c51a30654be30; 0xd192e819d6ef5218;
   0xd69906245565a910; 0xf40e35855771202a; 0x106aa07032bbd1b8;
   0x19a4c116b8d2d0c8; 0x1e376c085141ab53; 0x2748774cdf8eeb99;
   0x34b0bcb5e19b48a8; 0x391c0cb3c5c95a63; 0x4ed8aa4ae3418acb;
   0x5b9cca4f7763e373; 0x682e6ff3d6b2b8a3; 0x748f82ee5defb2fc;
   0x78a5636f43172f60; 0x84c87814a1f0ab72; 0x8cc702081a6439ec;
   0x90befffa23631e28; 0xa4506cebde82bde9; 0xbef9a3f7b2c67915;
   0xc67178f2e372532b; 0xca273eceea26619c; 0xd186b8c721c0c207;
   0xeada7dd6cde0eb1e; 0xf57d4f7fee6ed178; 0x06f067aa72176fba;
   0x0a637dc5a2c898a6; 0x113f9804bef90dae; 0x1b710b35131c471b;
   0x28db77f523047d84; 0x32caab7b40c72493; 0x3c9ebe0a15c9bebc;
   0x431d67c49c100d4c; 0x4cc5d4becb3e42b6; 0x597f299cfc657e2a;
   0x5fcb6fab3ad6faec; 0x6c44198c4a475817
  ].

Definition init : list Z :=
  [
   0x6a09e667f3bcc908; 0xbb67ae8584caa73b; 0x3c6ef372fe94f82b; 0xa54ff53a5f1d36f1;
   0x510e527fade682d1; 0x9b05688c2b3e6c1f; 0x1f83d9abfb41bd6b; 0x5be0cd19137e2179
  ].

(** Padding: a 0x80 byte, zero bytes up to 112 modulo 128, and the bit
    length of the message as a 128-bit big-endian integer. *)
Definition bigEndian (width : nat) (v : Z) : list byte :=
  map (fun i => byte_of_Z (Z.shiftr v (8 * Z.of_nat i))) (rev (seq 0 width)).

Definition pad (msg : list byte) : list byte :=
  let len := Z.of_nat (List.length msg) in
  let zeros := Z.to_nat ((128 - (len + 17) mod 128) mod 128) in
  msg ++ [x80] ++ repeat x00 zeros ++ bigEndian 16 (8 * len).

Definition word_of_bytes (bs : list byte) : Z :=
  fold_left (fun acc b => Z.lor (Z.shiftl acc 8) (Z_of_byte b)) bs 0.

Fixpoint chunks {A : Type} (fuel size : nat) (l : list A) : list (list A) :=
  match fuel with
  | O => []
  | S fuel' =>
      match l with
      | [] => []
      | _ :: _ => firstn size l :: chunks fuel' size (skipn size l)
      end
  end.

Definition words_of_bytes (bs : list byte) : list Z :=
  map word_of_bytes (chunks (List.length bs) 8 bs).

(** The message schedule, most recent word first: [recent] holds
    W(t-1), W(t-2), ... *)
Fixpoint schedule (n : nat) (recent : list Z) : list Z :=
  match n with
  | O => recent
  | S n' =>
      let w := add64 (add64 (ssig1 (nth 1 recent 0)) (nth 6 recent 0))
                     (add64 (ssig0 (nth 14 recent 0)) (nth 15 recent 0)) in
      schedule n' (w :: recent)
  end.

Record digest : Type := mkDigest
  { h0 : Z; h1 : Z; h2 : Z; h3 : Z; h4 : Z; h5 : Z; h6 : Z; h7 : Z }.

Definition round (s : digest) (kw : Z * Z) : digest :=
  let '(k, w) := kw in
  let t1 := add64 (add64 (add64 (h7 s) (bsig1 (h4 s)))
                         (add64 (Ch (h4 s) (h5 s) (h6 s)) k)) w in
  let t2 := add64 (bsig0 (h0 s)) (Maj (h0 s) (h1 s) (h2 s)) in
  mkDigest (add64 t1 t2) (h0 s) (h1 s) (h2 s)
           (add64 (h3 s) t1) (h4 s) (h5 s) (h6 s).

Definition block (s : digest) (ws : list Z) : digest :=
  let w := rev (schedule 64 (rev ws)) in
  let r := fold_left round (combine _K w) s in
  mkDigest (add64 (h0 s) (h0 r)) (add64 (h1 s) (h1 r))
           (add64 (h2 s) (h2 r)) (add64 (h3 s) (h3 r))
           (add64 (h4 s) (h4 r)) (add64 (h5 s) (h5 r))
           (add64 (h6 s) (h6 r)) (add64 (h7 s) (h7 r)).

Definition digest_of_list (l : list Z) : digest :=
  mkDigest (nth 0 l 0) (nth 1 l 0) (nth 2 l 0) (nth 3 l 0)
           (nth 4 l 0) (nth 5 l 0) (nth 6 l 0) (nth 7 l 0).

Definition list_of_digest (s : digest) : list Z :=
  [h0 s; h1 s; h2 s; h3 s; h4 s; h5 s; h6 s; h7 s].

(** [sha512.Sum512]: the 64-byte checksum of the data. *)
Definition Sum512 (data : list byte) : list byte :=
  let ws := words_of_bytes (pad data) in
  let blocks := chunks (List.length ws) 16 ws in
  let s := fold_left block blocks (digest_of_list init) in
  flat_map (bigEndian 8) (list_of_digest s).

End sha512.

(* ================================================================== *)
(** ** Errors *)

(** Go [error] values.  The two sentinels are authboss's; [errorString]
    is [errors.New(msg)], any other error a collaborator may return;
    [withMessage] is what [errors.Wrap] builds around a cause. *)
Inductive error : Type :=
| ErrUserNotFound
| ErrTokenNotFound
| ErrUnexpectedEOF
| errorString (msg : string)
| withMessage (cause : error) (msg : string).

(** [errors.Wrap(err, msg)] for a non-nil [err]. *)
Definition Wrap (err : error) (msg : string) : error := withMessage err msg.

(** [errors.Cause]: the innermost error of a chain of wraps. *)
Fixpoint Cause (err : error) : error :=
  match err with
  | withMessage cause _ => Cause cause
  | _ => err
  end.

(** What a goroutine panics with: an error handed to [panic], a failed
    type assertion, or a method call through a nil interface. *)
Inductive PanicValue : Type :=
| PanicError (err : error)
| PanicTypeAssertion
| PanicNilDereference.

(* ================================================================== *)
(** ** Request-scoped state *)

Definition contextKey : Type := string.

Definition CTXKeyPID : contextKey := "pid".
Definition CTXKeyUser : contextKey := "user".
Definition CTXKeySessionState : contextKey := "session".
Definition CTXKeyCookieState : contextKey := "cookie".
Definition CTXKeyData : contextKey := "data".
Definition CTXKeyRM : contextKey := "rm".

(** [contextKey.String] *)
Definition contextKey_String (c : contextKey) : string :=
  ("authboss ctx key " ++ c)%string.

(** The user interface: the core only needs the pid of a user. *)
Class User (U : Type) : Type := { GetPID : U -> string }.

(** A Go [interface{}] value as it is found in a request context. *)
Inductive any (U : Type) : Type :=
| anyNil
| anyBool (b : bool)
| anyString (s : string)
| anyInt (n : Z)
| anyUser (u : U).

Arguments anyNil {U}.
Arguments anyBool {U} b.
Arguments anyString {U} s.
Arguments anyInt {U} n.
Arguments anyUser {U} u.

(** A [context.Context]: the chain of bindings, innermost first. *)
Definition Context (U : Type) : Type := list (contextKey * any U).

(** [ctx.Value(key)]: the innermost binding of [key], nil without one. *)
Fixpoint Value {U : Type} (ctx : Context U) (key : contextKey) : any U :=
  match ctx with
  | [] => anyNil
  | (k, v) :: parent => if String.eqb k key then v else Value parent key
  end.

(** [context.WithValue(ctx, key, val)] *)
Definition WithValue {U : Type} (ctx : Context U) (key : contextKey)
  (val : any U) : Context U :=
  (key, val) :: ctx.

(** Modelled from the spec: the read side of a client state port (the
    cookie store and the session store are two instances),
    [get(request, key) -> value?]; the ClientState interface is declared
    outside of the files at hand. *)
Definition ClientState : Type := list (string * string).

Fixpoint Get (cs : ClientState) (key : string) : string * bool :=
  match cs with
  | [] => ("", false)
  | (k, v) :: rest => if String.eqb k key then (v, true) else Get rest key
  end.

(** An [*http.Request]: its context and the two client states that came
    with it. *)
Record Request (U : Type) : Type := mkRequest
  { reqContext : Context U;
    reqCookies : option ClientState;
    reqSession : option ClientState }.

Arguments mkRequest {U}.
Arguments reqContext {U}.
Arguments reqCookies {U}.
Arguments reqSession {U}.

(** [r.WithContext(ctx)] *)
Definition WithContext {U : Type} (r : Request U) (ctx : Context U)
  : Request U :=
  mkRequest ctx (reqCookies r) (reqSession r).

(** Modelled from the spec: the names of the persisted artifacts, "cookie
    named for the remember token; session entries for the resolved
    principal id and a half-authenticated flag"; the constants
    themselves are declared outside of the files at hand. *)
Class ClientStateKeys : Type :=
  { SessionKey : string;
    SessionHalfAuthKey : string;
    CookieRemember : string }.

(** Modelled from the spec: [GetCookie] and [GetSession], the
    [get(request, key)] capability of the two client state ports; a
    request without the state has no value under any key. *)
Definition GetCookie {U : Type} (r : Request U) (key : string)
  : string * bool :=
  match reqCookies r with
  | Some cs => Get cs key
  | None => ("", false)
  end.

Definition GetSession {U : Type} (r : Request U) (key : string)
  : string * bool :=
  match reqSession r with
  | Some cs => Get cs key
  | None => ("", false)
  end.

(* ================================================================== *)
(** ** The world outside of the request *)

(** A call made to the storage collaborator. *)
Inductive StorerCall : Type :=
| CallLoad (pid : string)
| CallAddRememberToken (pid hash : string)
| CallUseRememberToken (pid hash : string)
| CallDelRememberTokens (pid : string).

(** What the code did to its surroundings, in order: calls to the
    storer, client state events queued on the response, log lines. *)
Inductive Event : Type :=
| EvStorer (call : StorerCall)
| EvPutCookie (key value : string)
| EvDelCookie (key : string)
| EvPutSession (key value : string)
| EvDelSession (key : string)
| EvInfof (format : string) (args : list string)
| EvErrorf (format : string) (err : error).

(** One answer of [crypto/rand.Read]: bytes, or an error. *)
Inductive RandOutcome : Type :=
| RandBytes (bs : list byte)
| RandError (err : error).

Record World (S : Type) : Type := mkWorld
  { store : S;
    entropy : list RandOutcome;
    trace : list Event }.

Arguments mkWorld {S}.
Arguments store {S}.
Arguments entropy {S}.
Arguments trace {S}.

(** The storage collaborator: [Load] of the ServerStorer and the three
    capabilities of a RememberingServerStorer, over a store of type [S].
    Every call may change the store and may fail. *)
Class ServerStorer (U S : Type) : Type :=
  { Load : Context U -> string -> S -> (option U * option error) * S;
    AddRememberToken : string -> string -> S -> option error * S;
    UseRememberToken : string -> string -> S -> option error * S;
    DelRememberTokens : string -> S -> option error * S }.

(** A computation either returns or panics. *)
Inductive Outcome (S A : Type) : Type :=
| Ret (a : A) (w : World S)
| Panic (p : PanicValue) (w : World S).

Arguments Ret {S A}.
Arguments Panic {S A}.

Definition M (S A : Type) : Type := World S -> Outcome S A.

Definition ret {S A : Type} (a : A) : M S A := fun w => Ret a w.

Definition bind {S A B : Type} (m : M S A) (k : A -> M S B) : M S B :=
  fun w =>
    match m w with
    | Ret a w' => k a w'
    | Panic p w' => Panic p w'
    end.

Definition panic {S A : Type} (p : PanicValue) : M S A := fun w => Panic p w.

Definition emit {S : Type} (e : Event) : M S unit :=
  fun w => Ret tt (mkWorld (store w) (entropy w) (trace w ++ [e])).

Declare Scope go_scope.
Delimit Scope go_scope with go.
Notation "x <- m ;; k" := (bind m (fun x => k))
  (at level 61, m at next level, right associativity) : go_scope.
Notation "' p <- m ;; k" := (bind m (fun x => match x with p => k end))
  (at level 61, p pattern, m at next level, right associativity) : go_scope.
Notation "m ;; k" := (bind m (fun _ => k))
  (at level 61, right associativity) : go_scope.
Local Open Scope go_scope.

(** Modelled from the spec: [put(response, key, value)] and
    [delete(response, key)] of the two client state ports, and the
    leveled request logger; each is recorded as an event. *)
Definition PutCookie {S : Type} (key val : string) : M S unit :=
  emit (EvPutCookie key val).
Definition DelCookie {S : Type} (key : string) : M S unit :=
  emit (EvDelCookie key).
Definition PutSession {S : Type} (key val : string) : M S unit :=
  emit (EvPutSession key val).
Definition DelSession {S : Type} (key : string) : M S unit :=
  emit (EvDelSession key).
Definition Infof {S : Type} (format : string) (args : list string) : M S unit :=
  emit (EvInfof format args).
Definition Errorf {S : Type} (format : string) (err : error) : M S unit :=
  emit (EvErrorf format err).

(** Bytes read into a buffer: positions the read does not reach keep
    their content. *)
Definition readInto (buf bs : list byte) : list byte :=
  firstn (List.length buf) bs ++ skipn (List.length bs) buf.

(** [rand.Read(buf)]: the next answer of the random source written over
    [buf].  A source with no answer left reports an unexpected end of
    input.  [crypto/rand] fills the buffer or fails: an answer shorter
    than the buffer is more than it can give, and is read here as leaving
    the rest of the buffer as it was. *)
Definition rand_Read {S : Type} (buf : list byte)
  : M S (list byte * option error) :=
  fun w =>
    match entropy w with
    | [] => Ret (buf, Some ErrUnexpectedEOF) w
    | RandError err :: rest =>
        Ret (buf, Some err) (mkWorld (store w) rest (trace w))
    | RandBytes bs :: rest =>
        Ret (readInto buf bs, None) (mkWorld (store w) rest (trace w))
    end.

(** Where a computation leaves the world, returning or panicking. *)
Definition final_world {S A : Type} (o : Outcome S A) : World S :=
  match o with
  | Ret _ w => w
  | Panic _ w => w
  end.

(* ================================================================== *)
(** ** context.go and remember/remember.go *)

Section Model.

Context {U : Type} {UserU : User U}.
Context {S : Type} {Storer : ServerStorer U S}.
Context {Keys : ClientStateKeys}.

(** The storer's methods as effects: the call is recorded, the store
    replaced by the one the call leaves. *)
Definition storer_call {A : Type} (call : StorerCall) (f : S -> A * S)
  : M S A :=
  fun w =>
    let '(a, s') := f (store w) in
    Ret a (mkWorld s' (entropy w) (trace w ++ [EvStorer call])).

Definition storer_Load (ctx : Context U) (pid : string)
  : M S (option U * option error) :=
  storer_call (CallLoad pid) (Load ctx pid).

Definition storer_AddRememberToken (pid hash : string) : M S (option error) :=
  storer_call (CallAddRememberToken pid hash) (AddRememberToken pid hash).

Definition storer_UseRememberToken (pid hash : string) : M S (option error) :=
  storer_call (CallUseRememberToken pid hash) (UseRememberToken pid hash).

Definition storer_DelRememberTokens (pid : string) : M S (option error) :=
  storer_call (CallDelRememberTokens pid) (DelRememberTokens pid).

(** *** context.go *)

(** [CurrentUserID] retrieves the current user from the session. *)
Definition CurrentUserID (r : Request U) : M S (string * option error) :=
  match Value (reqContext r) CTXKeyPID with
  | anyNil =>
      let '(pid, _) := GetSession r SessionKey in
      ret (pid, None)
  | anyString pid => ret (pid, None)
  | _ => panic PanicTypeAssertion
  end.

(** [CurrentUserIDP] panics if the id is not available. *)
Definition CurrentUserIDP (r : Request U) : M S string :=
  '(i, err) <- CurrentUserID r ;;
  match err with
  | Some e => panic (PanicError e)
  | None =>
      if (String.length i =? 0)%nat then panic (PanicError ErrUserNotFound)
      else ret i
  end.

Definition currentUser (ctx : Context U) (pid : string)
  : M S (option U * option error) :=
  storer_Load ctx pid.

(** [CurrentUser] retrieves the current user from the session and the
    database; the context key is checked before the database. *)
Definition CurrentUser (r : Request U) : M S (option U * option error) :=
  match Value (reqContext r) CTXKeyUser with
  | anyNil =>
      '(pid, err) <- CurrentUserID r ;;
      match err with
      | Some e => ret (None, Some e)
      | None =>
          if (String.length pid =? 0)%nat then ret (None, Some ErrUserNotFound)
          else currentUser (reqContext r) pid
      end
  | anyUser user => ret (Some user, None)
  | _ => panic PanicTypeAssertion
  end.

(** [CurrentUserP] panics if the user is not available. *)
Definition CurrentUserP (r : Request U) : M S U :=
  '(i, err) <- CurrentUser r ;;
  match err with
  | Some e => panic (PanicError e)
  | None =>
      match i with
      | None => panic (PanicError ErrUserNotFound)
      | Some user => ret user
      end
  end.

(** [LoadCurrentUserID]: the request pointer the Go code updates in
    place is returned next to the result. *)
Definition LoadCurrentUserID (r : Request U)
  : M S (string * option error * Request U) :=
  match Value (reqContext r) CTXKeyPID with
  | anyNil =>
      '(pid, err) <- CurrentUserID r ;;
      match err with
      | Some e => ret ("", Some e, r)
      | None =>
          if (String.length pid =? 0)%nat then ret ("", None, r)
          else
            let ctx := WithValue (reqContext r) CTXKeyPID (anyString pid) in
            ret (pid, None, WithContext r ctx)
      end
  | anyString pid => ret (pid, None, r)
  | _ => panic PanicTypeAssertion
  end.

Definition LoadCurrentUserIDP (r : Request U) : M S (string * Request U) :=
  '(pid, err, r') <- LoadCurrentUserID r ;;
  match err with
  | Some e => panic (PanicError e)
  | None =>
      if (String.length pid =? 0)%nat then panic (PanicError ErrUserNotFound)
      else ret (pid, r')
  end.

Definition any_of_user (user : option U) : any U :=
  match user with
  | Some u => anyUser u
  | None => anyNil
  end.

(** [LoadCurrentUser] calls [LoadCurrentUserID], so the pid is put in
    the context as well as the user. *)
Definition LoadCurrentUser (r : Request U)
  : M S (option U * option error * Request U) :=
  match Value (reqContext r) CTXKeyUser with
  | anyNil =>
      '(pid, err, r1) <- LoadCurrentUserID r ;;
      match err with
      | Some e => ret (None, Some e, r1)
      | None =>
          if (String.length pid =? 0)%nat then ret (None, None, r1)
          else
            let ctx := reqContext r1 in
            '(user, err) <- currentUser ctx pid ;;
            match err with
            | Some e => ret (None, Some e, r1)
            | None =>
                let ctx := WithValue ctx CTXKeyUser (any_of_user user) in
                ret (user, None, WithContext r1 ctx)
            end
      end
  | anyUser user => ret (Some user, None, r)
  | _ => panic PanicTypeAssertion
  end.

Definition LoadCurrentUserP (r : Request U) : M S (U * Request U) :=
  '(user, err, r') <- LoadCurrentUser r ;;
  match err with
  | Some e => panic (PanicError e)
  | None =>
      match user with
      | None => panic (PanicError ErrUserNotFound)
      | Some u => ret (u, r')
      end
  end.

(** *** remember/remember.go *)

Definition nNonceSize : nat := 32.

(** [GenerateToken] creates a remember me token. *)
Definition GenerateToken (pid : string)
  : M S (string * string * option error) :=
  let pidBytes := list_byte_of_string pid in
  '(nonce, err) <- rand_Read (repeat x00 nNonceSize) ;;
  match err with
  | Some e => ret ("", "", Some (Wrap e "failed to create remember me nonce"))
  | None =>
      let rawToken := pidBytes ++ [";"%byte] ++ nonce in
      let sum := sha512.Sum512 rawToken in
      ret (base64.EncodeToString base64.StdEncoding sum,
           base64.EncodeToString base64.URLEncoding rawToken, None)
  end.

(** [RememberAfterAuth] creates a remember token and saves it in the
    user's cookies. *)
Definition RememberAfterAuth (req : Request U) (handled : bool)
  : M S (bool * option error) :=
  match Value (reqContext req) CTXKeyRM with
  | anyNil => ret (false, None)
  | anyBool false => ret (false, None)
  | _ =>
      user <- CurrentUserP req ;;
      '(hash, token, err) <- GenerateToken (GetPID user) ;;
      match err with
      | Some e => ret (false, Some e)
      | None =>
          err <- storer_AddRememberToken (GetPID user) hash ;;
          match err with
          | Some e => ret (false, Some e)
          | None =>
              PutCookie CookieRemember token ;;
              ret (false, None)
          end
      end
  end.

(** [Authenticate] the user using their remember cookie.  A cookie that
    proves unusable is deleted. *)
Definition Authenticate (req : Request U) : M S (option error) :=
  let '(cookie, ok) := GetCookie req CookieRemember in
  if negb ok then ret None
  else
    match base64.DecodeString base64.URLEncoding cookie with
    | None =>
        DelCookie CookieRemember ;;
        Infof "failed to decode remember me cookie, deleting cookie" [] ;;
        ret None
    | Some rawToken =>
        let index := IndexByte rawToken ";"%byte in
        if index <? 0 then
          DelCookie CookieRemember ;;
          Infof "failed to decode remember me token, deleting cookie" [] ;;
          ret None
        else
          let pid := string_of_list_byte (firstn (Z.to_nat index) rawToken) in
          let sum := sha512.Sum512 rawToken in
          let hash := base64.EncodeToString base64.StdEncoding sum in
          err <- storer_UseRememberToken pid hash ;;
          match err with
          | Some ErrTokenNotFound =>
              Infof "remember me cookie had a token that was not in storage, deleting cookie" [] ;;
              DelCookie CookieRemember ;;
              ret None
          | Some e => ret (Some e)
          | None =>
              '(hash, token, err) <- GenerateToken pid ;;
              match err with
              | Some e => ret (Some e)
              | None =>
                  err <- storer_AddRememberToken pid hash ;;
                  match err with
                  | Some e => ret (Some (Wrap e "failed to save me token"))
                  | None =>
                      PutSession SessionKey pid ;;
                      PutSession SessionHalfAuthKey "true" ;;
                      DelCookie CookieRemember ;;
                      PutCookie CookieRemember token ;;
                      ret None
                  end
              end
          end
    end.

(** [Middleware] automatically authenticates users if they have remember
    me tokens.  If the user has been loaded already, it goes straight to
    the next handler. *)
Definition Middleware (next : Request U -> M S unit) (r : Request U)
  : M S unit :=
  match Value (reqContext r) CTXKeyPID, Value (reqContext r) CTXKeyUser with
  | anyNil, anyNil =>
      err <- Authenticate r ;;
      match err with
      | Some e =>
          Errorf "failed to authenticate user via remember me: %+v" e
      | None => ret tt
      end
  | _, _ => ret tt
  end ;;
  next r.

(** [AfterPasswordReset] is called after the password has been reset,
    since it should invalidate all tokens associated to that user. *)
Definition AfterPasswordReset (req : Request U) (handled : bool)
  : M S (bool * option error) :=
  '(user, err) <- CurrentUser req ;;
  match err with
  | Some e => ret (false, Some e)
  | None =>
      match user with
      | None => panic PanicNilDereference
      | Some u =>
          let pid := GetPID u in
          DelCookie CookieRemember ;;
          Infof "deleting tokens and rm cookies for user %s due to password reset" [pid] ;;
          err <- storer_DelRememberTokens pid ;;
          ret (false, err)
      end
  end.

End Model.

(* ================================================================== *)
(** ** Vocabulary of the properties *)

(** What [Authenticate] takes from a decoded cookie: the pid is the
    prefix before the first [';'], the hash is taken over all of it. *)
Definition cookiePID (rawToken : list byte) : string :=
  string_of_list_byte
    (firstn (Z.to_nat (IndexByte rawToken ";"%byte)) rawToken).

Definition cookieHash (rawToken : list byte) : string :=
  base64.EncodeToString base64.StdEncoding (sha512.Sum512 rawToken).

(** The raw token [GenerateToken] builds from a pid and the answer of
    the random source. *)
Definition rawTokenOf (pid : string) (nonce : list byte) : list byte :=
  list_byte_of_string pid ++ [";"%byte] ++ readInto (repeat x00 nNonceSize) nonce.

(** The world with further events recorded. *)
Definition logged {S : Type} (w : World S) (evs : list Event) : World S :=
  mkWorld (store w) (entropy w) (trace w ++ evs).

Definition isLoad (e : Event) : bool :=
  match e with
  | EvStorer (CallLoad _) => true
  | _ => false
  end.

(** The number of storage loads in a trace. *)
Definition loads (t : list Event) : nat := List.length (filter isLoad t).

(** Events that establish an identity on the client: a session entry or
    a cookie written. *)
Definition establishes (e : Event) : bool :=
  match e with
  | EvPutSession _ _ | EvPutCookie _ _ => true
  | _ => false
  end.

Definition isStorerCall (e : Event) : bool :=
  match e with
  | EvStorer _ => true
  | _ => false
  end.

(** Modelled from the spec: what the core may observe of the server-side
    remember tokens, the set of [{pid, hash}] pairs the storage holds; the
    storage itself is a collaborator outside of the files at hand. *)
Class TokenView (S : Type) : Type :=
  { hasToken : S -> string -> string -> bool }.

(** Modelled from the spec: the contract of the storage collaborator.
    [use_remember_token] is one-shot: it succeeds only on a stored pair
    and removes exactly that pair; [add_remember_token] stores exactly
    the pair it is given. *)
Definition use_is_one_shot {U S : Type} {Storer : ServerStorer U S}
  {View : TokenView S} : Prop :=
  forall pid hash s s',
    UseRememberToken pid hash s = (None, s') ->
    hasToken s pid hash = true /\
    hasToken s' pid hash = false /\
    forall p h, (p, h) <> (pid, hash) -> hasToken s' p h = hasToken s p h.

Definition add_stores_pair {U S : Type} {Storer : ServerStorer U S}
  {View : TokenView S} : Prop :=
  forall pid hash s s',
    AddRememberToken pid hash s = (None, s') ->
    hasToken s' pid hash = true /\
    forall p h, (p, h) <> (pid, hash) -> hasToken s' p h = hasToken s p h.

(** Modelled from the spec: [delete_remember_tokens(pid)] leaves no
    token of the pid and keeps those of every other pid. *)
Definition del_removes_all {U S : Type} {Storer : ServerStorer U S}
  {View : TokenView S} : Prop :=
  forall pid s s',
    DelRememberTokens pid s = (None, s') ->
    (forall h, hasToken s' pid h = false) /\
    forall p h, p <> pid -> hasToken s' p h = hasToken s p h.

(* ================================================================== *)
(** ** An in-memory storer

    A storer to run the code against: users and tokens in lists, and two
    switches to make it fail. *)

Module Mem.

Record MemUser : Type := mkUser { userPID : string; userEmail : string }.

#[export] Instance MemUser_User : User MemUser := { GetPID := userPID }.

Record MemStore : Type := mkStore
  { users : list MemUser;
    tokens : list (string * string);
    offline : bool;     (* every call fails *)
    full : bool }.      (* no room for a new token *)

Definition errOffline : error := errorString "storage offline".
Definition errFull : error := errorString "storage full".

Definition sameToken (pid hash : string) (t : string * string) : bool :=
  String.eqb (fst t) pid && String.eqb (snd t) hash.

Definition memLoad (ctx : Context MemUser) (pid : string) (s : MemStore)
  : (option MemUser * option error) * MemStore :=
  if offline s then ((None, Some errOffline), s)
  else
    match find (fun u => String.eqb (userPID u) pid) (users s) with
    | Some u => ((Some u, None), s)
    | None => ((None, Some ErrUserNotFound), s)
    end.

Definition memAdd (pid hash : string) (s : MemStore)
  : option error * MemStore :=
  if offline s then (Some errOffline, s)
  else if full s then (Some errFull, s)
  else (None, mkStore (users s) ((pid, hash) :: tokens s)
                      (offline s) (full s)).

Definition memUse (pid hash : string) (s : MemStore)
  : option error * MemStore :=
  if offline s then (Some errOffline, s)
  else if existsb (sameToken pid hash) (tokens s) then
    (None, mkStore (users s)
             (filter (fun t => negb (sameToken pid hash t)) (tokens s))
             (offline s) (full s))
  else (Some ErrTokenNotFound, s).

Definition memDel (pid : string) (s : MemStore) : option error * MemStore :=
  if offline s then (Some errOffline, s)
  else (None, mkStore (users s)
                (filter (fun t => negb (String.eqb (fst t) pid)) (tokens s))
                (offline s) (full s)).

#[export] Instance MemStorer : ServerStorer MemUser MemStore :=
  { Load := memLoad;
    AddRememberToken := memAdd;
    UseRememberToken := memUse;
    DelRememberTokens := memDel }.

#[export] Instance MemView : TokenView MemStore :=
  { hasToken := fun s pid hash => existsb (sameToken pid hash) (tokens s) }.

(** The names authboss gives the persisted artifacts. *)
#[export] Instance keys : ClientStateKeys :=
  { SessionKey := "uid";
    SessionHalfAuthKey := "halfauth";
    CookieRemember := "rm" }.

(** A user, and the token of the concrete scenario: pid "u42" and a
    nonce of 32 zero bytes. *)
Definition u42 : MemUser := mkUser "u42" "u42@example.com".

Definition zeroNonce : list byte := repeat x00 32.
Definition otherNonce : list byte := repeat x01 32.

Definition raw42 : list byte := rawTokenOf "u42" zeroNonce.
Definition token42 : string :=
  base64.EncodeToString base64.URLEncoding raw42.
Definition hash42 : string := cookieHash raw42.

(** A store that holds the user and this one token. *)
Definition store42 : MemStore :=
  mkStore [u42] [("u42", hash42)] false false.

(** The same store when it is unreachable, when it has no room left,
    and before any token was issued. *)
Definition offline42 : MemStore :=
  mkStore [u42] [("u42", hash42)] true false.
Definition full42 : MemStore :=
  mkStore [u42] [("u42", hash42)] false true.
Definition fresh42 : MemStore := mkStore [u42] [] false false.

Definition world (s : MemStore) (rnd : list RandOutcome) : World MemStore :=
  mkWorld s rnd [].

(** Requests: anonymous, with a cookie, with a session, with the opt-in
    flag of the authenticator. *)
Definition anonymous : Request MemUser := mkRequest [] None None.

Definition withCookie (value : string) : Request MemUser :=
  mkRequest [] (Some [("rm", value)]) None.

Definition withSession (pid : string) : Request MemUser :=
  mkRequest [] None (Some [("uid", pid)]).

Definition withFlag (flag : any MemUser) (pid : string) : Request MemUser :=
  mkRequest [(CTXKeyRM, flag)] None (Some [("uid", pid)]).

Definition withUser (u : MemUser) : Request MemUser :=
  mkRequest [(CTXKeyUser, anyUser u)] (Some [("rm", token42)]) None.

Definition withPID (pid : string) : Request MemUser :=
  mkRequest [(CTXKeyPID, anyString pid)] (Some [("rm", token42)]) None.

(** A handler that leaves a line in the log. *)
Definition served : Request MemUser -> M MemStore unit :=
  fun _ => Infof "served" [].

End Mem.

(* ================================================================== *)
(** * Properties *)

(** ** Bytes and base64: decoding undoes encoding *)

Lemma Z_of_byte_range (b : byte) : 0 <= Z_of_byte b < 256.
Proof.
  unfold Z_of_byte. pose proof (Byte.to_N_bounded b). lia.
Qed.

Lemma byte_of_Z_of_byte (b : byte) : byte_of_Z (Z_of_byte b) = b.
Proof.
  unfold byte_of_Z, Z_of_byte.
  pose proof (Byte.to_N_bounded b).
  rewrite Z.mod_small by lia.
  rewrite N2Z.id, Byte.of_to_N. reflexivity.
Qed.

Lemma byte_of_Z_mod (z : Z) : byte_of_Z (z mod 256) = byte_of_Z z.
Proof. unfold byte_of_Z. rewrite Z.mod_mod by lia. reflexivity. Qed.

Lemma lor_shiftl_add (hi lo k : Z) :
  0 <= k -> 0 <= lo < 2 ^ k -> Z.lor (Z.shiftl hi k) lo = hi * 2 ^ k + lo.
Proof.
  intros Hk Hlo.
  assert (Hland : Z.land (Z.shiftl hi k) lo = 0).
  { apply Z.bits_inj'. intros n Hn.
    rewrite Z.land_spec, Z.bits_0.
    destruct (Z.ltb_spec n k).
    - rewrite Z.shiftl_spec_low by lia. reflexivity.
    - rewrite andb_comm.
      destruct (Z.eq_dec lo 0) as [->|Hne]; [rewrite Z.bits_0; reflexivity|].
      rewrite (Z.bits_above_log2 lo n); [reflexivity|lia|].
      apply Z.log2_lt_pow2; try lia.
      eapply Z.lt_le_trans; [apply Hlo|]. apply Z.pow_le_mono_r; lia. }
  pose proof (Z.add_lor_land (Z.shiftl hi k) lo) as H.
  rewrite Hland, Z.add_0_r in H. rewrite H.
  rewrite Z.shiftl_mul_pow2 by lia. reflexivity.
Qed.

Import base64.

Lemma sextet_spec (v k : Z) : 0 <= k -> sextet v k = (v / 2 ^ k) mod 64.
Proof.
  intros Hk. unfold sextet.
  change 63 with (Z.ones 6).
  rewrite Z.land_ones by lia. rewrite Z.shiftr_div_pow2 by lia. reflexivity.
Qed.

Lemma sextet_range (v k : Z) : 0 <= k -> 0 <= sextet v k < 64.
Proof.
  intros Hk. rewrite sextet_spec by lia. apply Z.mod_pos_bound. lia.
Qed.

Lemma quantumVal_spec (d0 d1 d2 d3 : Z) :
  0 <= d1 < 64 -> 0 <= d2 < 64 -> 0 <= d3 < 64 ->
  quantumVal d0 d1 d2 d3 = d0 * 262144 + d1 * 4096 + d2 * 64 + d3.
Proof.
  intros H1 H2 H3. unfold quantumVal.
  rewrite (lor_shiftl_add d2 d3 6) by lia.
  rewrite (lor_shiftl_add d1 _ 12) by lia.
  rewrite (lor_shiftl_add d0 _ 18) by lia.
  lia.
Qed.

Lemma val3_spec (b0 b1 b2 : Z) :
  0 <= b1 < 256 -> 0 <= b2 < 256 ->
  Z.lor (Z.shiftl b0 16) (Z.lor (Z.shiftl b1 8) b2)
  = b0 * 65536 + b1 * 256 + b2.
Proof.
  intros H1 H2.
  rewrite (lor_shiftl_add b1 b2 8) by lia.
  rewrite (lor_shiftl_add b0 _ 16) by lia.
  lia.
Qed.

Lemma byte_of_Z_eq (z : Z) (b : byte) :
  z mod 256 = Z_of_byte b -> byte_of_Z z = b.
Proof.
  intros H. rewrite <- byte_of_Z_mod, H. apply byte_of_Z_of_byte.
Qed.

Lemma quantum3 (b0 b1 b2 : byte) :
  let val := Z.lor (Z.shiftl (Z_of_byte b0) 16)
               (Z.lor (Z.shiftl (Z_of_byte b1) 8) (Z_of_byte b2)) in
  let val' := quantumVal (sextet val 18) (sextet val 12) (sextet val 6)
                (sextet val 0) in
  byte_of_Z (Z.shiftr val' 16) = b0 /\
  byte_of_Z (Z.shiftr val' 8) = b1 /\
  byte_of_Z val' = b2.
Proof.
  intros val val'.
  pose proof (Z_of_byte_range b0) as R0.
  pose proof (Z_of_byte_range b1) as R1.
  pose proof (Z_of_byte_range b2) as R2.
  assert (Hval : val = Z_of_byte b0 * 65536 + Z_of_byte b1 * 256 + Z_of_byte b2).
  { apply val3_spec; lia. }
  assert (Hval' : val' = val).
  { unfold val'. rewrite quantumVal_spec by (apply sextet_range; lia).
    rewrite !sextet_spec by lia. rewrite Hval.
    change (2 ^ 18) with 262144. change (2 ^ 12) with 4096.
    change (2 ^ 6) with 64. change (2 ^ 0) with 1.
    Z.div_mod_to_equations. lia. }
  rewrite Hval'. rewrite !Z.shiftr_div_pow2 by lia. rewrite Hval.
  change (2 ^ 16) with 65536. change (2 ^ 8) with 256.
  repeat split; apply byte_of_Z_eq; Z.div_mod_to_equations; lia.
Qed.

Lemma quantum2 (b0 b1 : byte) :
  let val := Z.lor (Z.shiftl (Z_of_byte b0) 16) (Z.shiftl (Z_of_byte b1) 8) in
  let val' := quantumVal (sextet val 18) (sextet val 12) (sextet val 6) 0 in
  byte_of_Z (Z.shiftr val' 16) = b0 /\ byte_of_Z (Z.shiftr val' 8) = b1.
Proof.
  intros val val'.
  pose proof (Z_of_byte_range b0) as R0.
  pose proof (Z_of_byte_range b1) as R1.
  assert (Hval : val = Z_of_byte b0 * 65536 + Z_of_byte b1 * 256).
  { unfold val. rewrite <- (Z.lor_0_r (Z.shiftl (Z_of_byte b1) 8)).
    rewrite val3_spec by lia. lia. }
  assert (Hval' : val' = val).
  { unfold val'. rewrite quantumVal_spec by (try apply sextet_range; lia).
    rewrite !sextet_spec by lia. rewrite Hval.
    change (2 ^ 18) with 262144. change (2 ^ 12) with 4096.
    change (2 ^ 6) with 64.
    Z.div_mod_to_equations. lia. }
  rewrite Hval'. rewrite !Z.shiftr_div_pow2 by lia. rewrite Hval.
  change (2 ^ 16) with 65536. change (2 ^ 8) with 256.
  split; apply byte_of_Z_eq; Z.div_mod_to_equations; lia.
Qed.

Lemma quantum1 (b0 : byte) :
  let val := Z.shiftl (Z_of_byte b0) 16 in
  let val' := quantumVal (sextet val 18) (sextet val 12) 0 0 in
  byte_of_Z (Z.shiftr val' 16) = b0.
Proof.
  intros val val'.
  pose proof (Z_of_byte_range b0) as R0.
  assert (Hval : val = Z_of_byte b0 * 65536).
  { unfold val. rewrite Z.shiftl_mul_pow2 by lia. reflexivity. }
  assert (Hval' : val' = val).
  { unfold val'. rewrite quantumVal_spec by (try apply sextet_range; lia).
    rewrite !sextet_spec by lia. rewrite Hval.
    change (2 ^ 18) with 262144. change (2 ^ 12) with 4096.
    Z.div_mod_to_equations. lia. }
  rewrite Hval'. rewrite !Z.shiftr_div_pow2 by lia. rewrite Hval.
  change (2 ^ 16) with 65536.
  apply byte_of_Z_eq; Z.div_mod_to_equations; lia.
Qed.

Lemma wellFormed_Std : wellFormed StdEncoding = true.
Proof. vm_compute. reflexivity. Qed.

Lemma wellFormed_URL : wellFormed URLEncoding = true.
Proof. vm_compute. reflexivity. Qed.

Section Alphabet.

Variable enc : Encoding.
Hypothesis Hwf : wellFormed enc = true.

Lemma decodeMap_pad : decodeMap enc StdPadding = 255.
Proof.
  unfold wellFormed in Hwf. apply andb_prop in Hwf as [H _].
  apply Z.eqb_eq in H. exact H.
Qed.

Lemma encodeAt_ok (i : Z) :
  0 <= i < 64 ->
  decodeMap enc (encodeAt enc i) = i /\ isNewline (encodeAt enc i) = false.
Proof.
  intros Hi. unfold wellFormed in Hwf. apply andb_prop in Hwf as [_ H].
  rewrite forallb_forall in H.
  specialize (H i).
  assert (Hin : In i (map Z.of_nat (seq 0 64))).
  { apply in_map_iff. exists (Z.to_nat i). split; [lia|].
    apply in_seq. lia. }
  apply H in Hin. apply andb_prop in Hin as [H1 H2].
  apply Z.eqb_eq in H1. apply negb_true_iff in H2. auto.
Qed.

Lemma decode_sextet (v k : Z) :
  0 <= k -> decodeMap enc (encodeAt enc (sextet v k)) = sextet v k.
Proof. intros Hk. apply encodeAt_ok, sextet_range, Hk. Qed.

Lemma inAlphabet_sextet (v k : Z) :
  0 <= k -> inAlphabet enc (encodeAt enc (sextet v k)) = true.
Proof.
  intros Hk. unfold inAlphabet. rewrite decode_sextet by lia.
  pose proof (sextet_range v k Hk).
  apply negb_true_iff, Z.eqb_neq. lia.
Qed.

Lemma inAlphabet_pad : inAlphabet enc StdPadding = false.
Proof. unfold inAlphabet. rewrite decodeMap_pad. reflexivity. Qed.

Lemma list_ind3 {A : Type} (P : list A -> Prop) :
  P [] -> (forall a, P [a]) -> (forall a b, P [a; b]) ->
  (forall a b c l, P l -> P (a :: b :: c :: l)) ->
  forall l, P l.
Proof.
  intros H0 H1 H2 H3.
  fix IH 1.
  intros [|a [|b [|c l]]];
    [exact H0 | apply H1 | apply H2 | apply H3; apply IH].
Qed.

Lemma decodeQuanta_Encode (src : list byte) :
  decodeQuanta enc (Encode enc src) = Some src.
Proof.
  induction src as [|b0|b0 b1|b0 b1 b2 rest IH] using list_ind3.
  - reflexivity.
  - cbn [Encode decodeQuanta].
    rewrite !inAlphabet_sextet by lia. rewrite inAlphabet_pad.
    cbn [andb]. unfold isPad. rewrite Ascii.eqb_refl. cbn [andb].
    rewrite !decode_sextet by lia.
    rewrite quantum1. reflexivity.
  - cbn [Encode decodeQuanta].
    rewrite !inAlphabet_sextet by lia. rewrite inAlphabet_pad.
    cbn [andb]. unfold isPad. rewrite Ascii.eqb_refl.
    rewrite !decode_sextet by lia.
    destruct (quantum2 b0 b1) as [-> ->]. reflexivity.
  - cbn [Encode decodeQuanta].
    rewrite !inAlphabet_sextet by lia. cbn [andb].
    rewrite !decode_sextet by lia. rewrite IH.
    destruct (quantum3 b0 b1 b2) as (-> & -> & ->). reflexivity.
Qed.

Lemma Encode_no_newline (src : list byte) :
  filter (fun c => negb (isNewline c)) (Encode enc src) = Encode enc src.
Proof.
  assert (Hs : forall v k, 0 <= k ->
             negb (isNewline (encodeAt enc (sextet v k))) = true).
  { intros v k Hk. apply negb_true_iff, encodeAt_ok, sextet_range, Hk. }
  induction src as [|b0|b0 b1|b0 b1 b2 rest IH] using list_ind3.
  - reflexivity.
  - cbn [Encode filter]. rewrite !Hs by lia. reflexivity.
  - cbn [Encode filter]. rewrite !Hs by lia. reflexivity.
  - cbn [Encode filter]. rewrite !Hs by lia. rewrite IH. reflexivity.
Qed.

Lemma DecodeString_EncodeToString (src : list byte) :
  DecodeString enc (EncodeToString enc src) = Some src.
Proof.
  unfold DecodeString, EncodeToString.
  rewrite list_ascii_of_string_of_list_ascii.
  rewrite Encode_no_newline. apply decodeQuanta_Encode.
Qed.

End Alphabet.

(** ** Finding the separator *)

Lemma IndexByte_lower (b : list byte) (c : byte) : -1 <= IndexByte b c.
Proof.
  induction b as [|x rest IH]; cbn [IndexByte]; [lia|].
  destruct (Byte.eqb x c); [lia|].
  destruct (Z.ltb_spec (IndexByte rest c) 0); lia.
Qed.

Lemma IndexByte_absent (b : list byte) (c : byte) :
  ~ In c b <-> IndexByte b c < 0.
Proof.
  induction b as [|x rest IH]; cbn [IndexByte In].
  - split; [lia | tauto].
  - destruct (Byte.eqb x c) eqn:E.
    + apply Byte.byte_dec_bl in E. split; [tauto | lia].
    + apply Byte.eqb_false in E.
      pose proof (IndexByte_lower rest c).
      destruct (Z.ltb_spec (IndexByte rest c) 0); split; intros H1.
      * lia.
      * intros [H2|H2]; [congruence | apply IH in H2; [exact H2 | lia]].
      * exfalso. apply H1. right.
        destruct (in_dec Byte.byte_eq_dec c rest) as [Hin|Hnin]; [exact Hin|].
        apply IH in Hnin. lia.
      * lia.
Qed.

Lemma IndexByte_first (a rest : list byte) (c : byte) :
  ~ In c a -> IndexByte (a ++ c :: rest) c = Z.of_nat (List.length a).
Proof.
  induction a as [|x a IH]; intros Hnin.
  - cbn [app IndexByte List.length].
    rewrite (Byte.byte_dec_lb (eq_refl c)). reflexivity.
  - cbn [app IndexByte List.length].
    destruct (Byte.eqb x c) eqn:E.
    + apply Byte.byte_dec_bl in E. exfalso. apply Hnin. left. exact E.
    + rewrite IH by (intros H; apply Hnin; right; exact H).
      destruct (Z.ltb_spec (Z.of_nat (List.length a)) 0); lia.
Qed.

Lemma first_occurrence (b : list byte) (c : byte) :
  In c b -> exists a rest, b = a ++ c :: rest /\ ~ In c a.
Proof.
  induction b as [|x b IH]; intros Hin; [destruct Hin|].
  destruct (Byte.byte_eq_dec x c) as [->|Hne].
  - exists [], b. split; [reflexivity | intros []].
  - destruct Hin as [Heq|Hin]; [congruence|].
    destruct (IH Hin) as (a & rest & -> & Hnin).
    exists (x :: a), rest. split; [reflexivity|].
    intros [H|H]; [congruence | exact (Hnin H)].
Qed.

Lemma firstn_prefix {A : Type} (a l : list A) :
  firstn (List.length a) (a ++ l) = a.
Proof.
  induction a as [|x a IH]; cbn; [destruct l; reflexivity | rewrite IH; reflexivity].
Qed.

(** The pid [Authenticate] reads off a raw token whose first separator
    follows [prefix]. *)
Lemma cookiePID_first (prefix rest : list byte) :
  ~ In ";"%byte prefix ->
  cookiePID (prefix ++ ";"%byte :: rest) = string_of_list_byte prefix.
Proof.
  intros Hnin. unfold cookiePID.
  rewrite IndexByte_first by exact Hnin.
  rewrite Nat2Z.id, firstn_prefix. reflexivity.
Qed.

Lemma IndexByte_present (b : list byte) (c : byte) :
  In c b -> (IndexByte b c <? 0) = false.
Proof.
  intros Hin. apply Z.ltb_ge.
  destruct (Z.lt_ge_cases (IndexByte b c) 0) as [H|H]; [|exact H].
  apply IndexByte_absent in H. contradiction.
Qed.

Lemma IndexByte_missing (b : list byte) (c : byte) :
  ~ In c b -> (IndexByte b c <? 0) = true.
Proof. intros H. apply Z.ltb_lt, IndexByte_absent, H. Qed.

(** ** Running the effects *)

Arguments sha512.Sum512 : simpl never.
Arguments base64.EncodeToString : simpl never.
Arguments base64.DecodeString : simpl never.
Arguments IndexByte : simpl never.
Arguments list_byte_of_string : simpl never.
Arguments string_of_list_byte : simpl never.

Lemma logged_logged {S : Type} (w : World S) (a b : list Event) :
  logged (logged w a) b = logged w (a ++ b).
Proof. unfold logged. cbn. rewrite app_assoc. reflexivity. Qed.

Lemma logged_nil {S : Type} (w : World S) : logged w [] = w.
Proof. unfold logged. rewrite app_nil_r. destruct w; reflexivity. Qed.

Lemma bind_Ret {S A B : Type} (m : M S A) (k : A -> M S B) w a w' :
  m w = Ret a w' -> bind m k w = k a w'.
Proof. intros H. unfold bind. rewrite H. reflexivity. Qed.

Lemma bind_Panic {S A B : Type} (m : M S A) (k : A -> M S B) w p w' :
  m w = Panic p w' -> bind m k w = Panic p w'.
Proof. intros H. unfold bind. rewrite H. reflexivity. Qed.

Lemma emit_run {S : Type} (e : Event) (w : World S) :
  emit e w = Ret tt (logged w [e]).
Proof. reflexivity. Qed.

Section Properties.

Context {U : Type} {UserU : User U}.
Context {S : Type} {Storer : ServerStorer U S}.
Context {Keys : ClientStateKeys}.

Implicit Types (w : World S) (req r : Request U).

Lemma storer_call_run {A : Type} (call : StorerCall) (f : S -> A * S) w a s' :
  f (store w) = (a, s') ->
  storer_call call f w
  = Ret a (mkWorld s' (entropy w) (trace w ++ [EvStorer call])).
Proof. intros H. unfold storer_call. rewrite H. reflexivity. Qed.

(** *** GenerateToken *)

Lemma GenerateToken_ok (pid : string) w nonce rest :
  entropy w = RandBytes nonce :: rest ->
  GenerateToken pid w
  = Ret (cookieHash (rawTokenOf pid nonce),
         base64.EncodeToString base64.URLEncoding (rawTokenOf pid nonce),
         None)
        (mkWorld (store w) rest (trace w)).
Proof.
  intros H. unfold GenerateToken, bind, rand_Read. rewrite H. reflexivity.
Qed.

Lemma GenerateToken_rand_error (pid : string) w err rest :
  entropy w = RandError err :: rest ->
  GenerateToken pid w
  = Ret ("", "", Some (Wrap err "failed to create remember me nonce"))
        (mkWorld (store w) rest (trace w)).
Proof.
  intros H. unfold GenerateToken, bind, rand_Read. rewrite H. reflexivity.
Qed.

Lemma GenerateToken_exhausted (pid : string) w :
  entropy w = [] ->
  GenerateToken pid w
  = Ret ("", "",
         Some (Wrap ErrUnexpectedEOF "failed to create remember me nonce")) w.
Proof.
  intros H. unfold GenerateToken, bind, rand_Read. rewrite H. reflexivity.
Qed.

(** Whatever a successful [GenerateToken] returns was built from the
    pid, a separator and a nonce. *)
Lemma GenerateToken_inv (pid : string) w hash token w' :
  GenerateToken pid w = Ret (hash, token, None) w' ->
  exists nonce rest,
    entropy w = RandBytes nonce :: rest /\
    hash = cookieHash (rawTokenOf pid nonce) /\
    token = base64.EncodeToString base64.URLEncoding (rawTokenOf pid nonce) /\
    w' = mkWorld (store w) rest (trace w).
Proof.
  intros H. destruct (entropy w) as [|[bs|err] rest] eqn:E.
  - rewrite GenerateToken_exhausted in H by exact E. discriminate.
  - rewrite (GenerateToken_ok pid w bs rest E) in H.
    inversion H; subst. exists bs, rest. auto.
  - rewrite (GenerateToken_rand_error pid w err rest E) in H. discriminate.
Qed.

Lemma readInto_full (nonce : list byte) :
  List.length nonce = nNonceSize ->
  readInto (repeat x00 nNonceSize) nonce = nonce.
Proof.
  intros H. unfold readInto. rewrite repeat_length.
  rewrite <- H at 1. rewrite firstn_all.
  rewrite skipn_all2 by (rewrite repeat_length; lia).
  apply app_nil_r.
Qed.

(** *** Authenticate, path by path *)

Ltac auth_unfold :=
  unfold Authenticate, RememberAfterAuth, AfterPasswordReset,
    storer_UseRememberToken, storer_AddRememberToken,
    storer_DelRememberTokens, storer_Load, currentUser, storer_call,
    GenerateToken, rand_Read, PutSession, PutCookie, DelCookie, Infof,
    Errorf, emit, bind, ret, panic, cookiePID, cookieHash, rawTokenOf,
    Wrap, logged in *.

Ltac trace_eq :=
  cbn [store entropy trace]; rewrite <- ?app_assoc; reflexivity.

Lemma Authenticate_no_cookie req w :
  snd (GetCookie req CookieRemember) = false ->
  Authenticate req w = Ret None w.
Proof.
  intros H. unfold Authenticate.
  destruct (GetCookie req CookieRemember) as [cookie ok].
  cbn in H. subst ok. reflexivity.
Qed.

Lemma Authenticate_undecodable req w cookie :
  GetCookie req CookieRemember = (cookie, true) ->
  base64.DecodeString base64.URLEncoding cookie = None ->
  Authenticate req w
  = Ret None
      (logged w [EvDelCookie CookieRemember;
                 EvInfof "failed to decode remember me cookie, deleting cookie" []]).
Proof.
  intros Hget Hdec. auth_unfold. rewrite Hget. cbn [negb]. rewrite Hdec.
  trace_eq.
Qed.

Lemma Authenticate_no_separator req w cookie rawToken :
  GetCookie req CookieRemember = (cookie, true) ->
  base64.DecodeString base64.URLEncoding cookie = Some rawToken ->
  ~ In ";"%byte rawToken ->
  Authenticate req w
  = Ret None
      (logged w [EvDelCookie CookieRemember;
                 EvInfof "failed to decode remember me token, deleting cookie" []]).
Proof.
  intros Hget Hdec Hsep. auth_unfold. rewrite Hget. cbn [negb]. rewrite Hdec.
  rewrite (IndexByte_missing _ _ Hsep). trace_eq.
Qed.

Section Presented.

(** A request that presents a cookie which decodes to a raw token with a
    separator: [Authenticate] gets as far as the storer. *)
Variables (req : Request U) (w : World S) (cookie : string)
  (rawToken : list byte).
Hypothesis Hget : GetCookie req CookieRemember = (cookie, true).
Hypothesis Hdec :
  base64.DecodeString base64.URLEncoding cookie = Some rawToken.
Hypothesis Hsep : In ";"%byte rawToken.

Local Abbreviation pid := (cookiePID rawToken).
Local Abbreviation hash := (cookieHash rawToken).

Ltac auth_start :=
  auth_unfold; rewrite Hget; cbn [negb]; rewrite Hdec;
  rewrite (IndexByte_present _ _ Hsep).

Lemma Authenticate_not_found s1 :
  UseRememberToken pid hash (store w) = (Some ErrTokenNotFound, s1) ->
  Authenticate req w
  = Ret None
      (mkWorld s1 (entropy w)
         (trace w ++
          [EvStorer (CallUseRememberToken pid hash);
           EvInfof "remember me cookie had a token that was not in storage, deleting cookie" [];
           EvDelCookie CookieRemember])).
Proof.
  intros Huse. auth_start. rewrite Huse. trace_eq.
Qed.

Lemma Authenticate_use_error s1 err :
  UseRememberToken pid hash (store w) = (Some err, s1) ->
  err <> ErrTokenNotFound ->
  Authenticate req w
  = Ret (Some err)
      (mkWorld s1 (entropy w)
         (trace w ++ [EvStorer (CallUseRememberToken pid hash)])).
Proof.
  intros Huse Hne. auth_start. rewrite Huse.
  destruct err; try reflexivity. congruence.
Qed.

Lemma Authenticate_rand_error s1 err rest :
  UseRememberToken pid hash (store w) = (None, s1) ->
  entropy w = RandError err :: rest ->
  Authenticate req w
  = Ret (Some (Wrap err "failed to create remember me nonce"))
      (mkWorld s1 rest
         (trace w ++ [EvStorer (CallUseRememberToken pid hash)])).
Proof.
  intros Huse Hent. auth_start. rewrite Huse. cbn [entropy].
  rewrite Hent. reflexivity.
Qed.

Lemma Authenticate_rand_exhausted s1 :
  UseRememberToken pid hash (store w) = (None, s1) ->
  entropy w = [] ->
  Authenticate req w
  = Ret (Some (Wrap ErrUnexpectedEOF "failed to create remember me nonce"))
      (mkWorld s1 []
         (trace w ++ [EvStorer (CallUseRememberToken pid hash)])).
Proof.
  intros Huse Hent. auth_start. rewrite Huse. cbn [entropy].
  rewrite Hent. reflexivity.
Qed.

Lemma Authenticate_add_error s1 nonce rest err s2 :
  UseRememberToken pid hash (store w) = (None, s1) ->
  entropy w = RandBytes nonce :: rest ->
  AddRememberToken pid (cookieHash (rawTokenOf pid nonce)) s1 = (Some err, s2) ->
  Authenticate req w
  = Ret (Some (Wrap err "failed to save me token"))
      (mkWorld s2 rest
         (trace w ++
          [EvStorer (CallUseRememberToken pid hash);
           EvStorer (CallAddRememberToken pid
                       (cookieHash (rawTokenOf pid nonce)))])).
Proof.
  intros Huse Hent Hadd. auth_start. rewrite Huse. cbn [entropy].
  rewrite Hent. cbn [store]. rewrite Hadd. trace_eq.
Qed.

Lemma Authenticate_rotates s1 nonce rest s2 :
  UseRememberToken pid hash (store w) = (None, s1) ->
  entropy w = RandBytes nonce :: rest ->
  AddRememberToken pid (cookieHash (rawTokenOf pid nonce)) s1 = (None, s2) ->
  Authenticate req w
  = Ret None
      (mkWorld s2 rest
         (trace w ++
          [EvStorer (CallUseRememberToken pid hash);
           EvStorer (CallAddRememberToken pid
                       (cookieHash (rawTokenOf pid nonce)));
           EvPutSession SessionKey pid;
           EvPutSession SessionHalfAuthKey "true";
           EvDelCookie CookieRemember;
           EvPutCookie CookieRemember
             (base64.EncodeToString base64.URLEncoding
                (rawTokenOf pid nonce))])).
Proof.
  intros Huse Hent Hadd. auth_start. rewrite Huse. cbn [entropy].
  rewrite Hent. cbn [store]. rewrite Hadd. trace_eq.
Qed.

End Presented.

Lemma error_not_found_dec (err : error) :
  err = ErrTokenNotFound \/ err <> ErrTokenNotFound.
Proof. destruct err; (left; reflexivity) || (right; discriminate). Qed.

(** [Authenticate] always returns: no path of it panics. *)
Lemma Authenticate_returns req w :
  exists err w', Authenticate req w = Ret err w'.
Proof.
  destruct (GetCookie req CookieRemember) as [cookie [|]] eqn:Hget.
  2:{ eexists _, _. apply Authenticate_no_cookie. rewrite Hget. reflexivity. }
  destruct (base64.DecodeString base64.URLEncoding cookie)
    as [rawToken|] eqn:Hdec.
  2:{ eexists _, _. eapply Authenticate_undecodable; eassumption. }
  destruct (in_dec Byte.byte_eq_dec ";"%byte rawToken) as [Hsep|Hsep].
  2:{ eexists _, _. eapply Authenticate_no_separator; eassumption. }
  destruct (UseRememberToken (cookiePID rawToken) (cookieHash rawToken)
              (store w)) as [[err|] s1] eqn:Huse.
  { destruct (error_not_found_dec err) as [->|Hne].
    - eexists _, _. eapply Authenticate_not_found; eassumption.
    - eexists _, _. eapply Authenticate_use_error; eassumption. }
  destruct (entropy w) as [|[nonce|err] rest] eqn:Hent.
  - eexists _, _. eapply Authenticate_rand_exhausted; eassumption.
  - destruct (AddRememberToken (cookiePID rawToken)
                (cookieHash (rawTokenOf (cookiePID rawToken) nonce)) s1)
      as [[err|] s2] eqn:Hadd.
    + eexists _, _. eapply Authenticate_add_error; eassumption.
    + eexists _, _. eapply Authenticate_rotates; eassumption.
  - eexists _, _. eapply Authenticate_rand_error; eassumption.
Qed.

(** A presented token is taken to the storer: the first thing
    [Authenticate] does with it is the consume call, under the pid before
    the first separator and the hash of all of the decoded bytes. *)
Lemma Authenticate_consumes req w cookie rawToken :
  GetCookie req CookieRemember = (cookie, true) ->
  base64.DecodeString base64.URLEncoding cookie = Some rawToken ->
  In ";"%byte rawToken ->
  exists tail,
    trace (final_world (Authenticate req w))
    = trace w ++
      EvStorer (CallUseRememberToken (cookiePID rawToken)
                  (cookieHash rawToken)) :: tail.
Proof.
  intros Hget Hdec Hsep.
  destruct (UseRememberToken (cookiePID rawToken) (cookieHash rawToken)
              (store w)) as [[err|] s1] eqn:Huse.
  { destruct (error_not_found_dec err) as [->|Hne].
    - erewrite Authenticate_not_found by eassumption.
      eexists. reflexivity.
    - erewrite Authenticate_use_error by eassumption.
      eexists. reflexivity. }
  destruct (entropy w) as [|[nonce|err] rest] eqn:Hent.
  - erewrite Authenticate_rand_exhausted by eassumption.
    eexists. reflexivity.
  - destruct (AddRememberToken (cookiePID rawToken)
                (cookieHash (rawTokenOf (cookiePID rawToken) nonce)) s1)
      as [[err|] s2] eqn:Hadd.
    + erewrite Authenticate_add_error by eassumption. eexists. reflexivity.
    + erewrite Authenticate_rotates by eassumption. eexists. reflexivity.
  - erewrite Authenticate_rand_error by eassumption. eexists. reflexivity.
Qed.

Lemma rawTokenOf_separator (pid : string) (nonce : list byte) :
  In ";"%byte (rawTokenOf pid nonce).
Proof.
  unfold rawTokenOf. apply in_or_app. right. left. reflexivity.
Qed.

(** C2. Round trip of a generated token: for a pid and a 32-byte nonce
    from the random source, [GenerateToken] returns the URL-safe base64 of
    [pid ++ ";" ++ nonce] as the token and the standard base64 of the
    SHA-512 of the same bytes as the hash; decoding the token gives these
    bytes back, and [Authenticate], handed the token as a cookie, asks the
    storer to consume exactly that hash. *)
Theorem GenerateToken_round_trip (pid : string) (nonce : list byte)
  (rest : list RandOutcome) w :
  List.length nonce = nNonceSize ->
  entropy w = RandBytes nonce :: rest ->
  let rawToken := list_byte_of_string pid ++ [";"%byte] ++ nonce in
  let hash := base64.EncodeToString base64.StdEncoding
                (sha512.Sum512 rawToken) in
  let token := base64.EncodeToString base64.URLEncoding rawToken in
  GenerateToken pid w
  = Ret (hash, token, None) (mkWorld (store w) rest (trace w)) /\
  base64.DecodeString base64.URLEncoding token = Some rawToken /\
  forall req w',
    GetCookie req CookieRemember = (token, true) ->
    exists pid' tail,
      trace (final_world (Authenticate req w'))
      = trace w' ++ EvStorer (CallUseRememberToken pid' hash) :: tail.
Proof.
  intros Hlen Hent rawToken hash token.
  assert (Hraw : rawTokenOf pid nonce = rawToken).
  { unfold rawTokenOf. rewrite readInto_full by exact Hlen. reflexivity. }
  assert (Hdec : base64.DecodeString base64.URLEncoding token = Some rawToken).
  { apply DecodeString_EncodeToString, wellFormed_URL. }
  split; [|split].
  - rewrite (GenerateToken_ok pid w nonce rest Hent), Hraw. reflexivity.
  - exact Hdec.
  - intros req w' Hget.
    assert (Hsep : In ";"%byte rawToken).
    { rewrite <- Hraw. apply rawTokenOf_separator. }
    destruct (Authenticate_consumes req w' token rawToken Hget Hdec Hsep)
      as [tail Htail].
    exists (cookiePID rawToken), tail. exact Htail.
Qed.

(** C9. The pid [Authenticate] reads off a generated token is the pid
    before the first separator: the issuing pid itself when that contains
    no [';'], and otherwise a proper prefix of it, so that the consume
    call is made under another pid than the token was issued for. *)
Theorem Authenticate_extracted_pid (pid : string) w hash token w1 req w' :
  GenerateToken pid w = Ret (hash, token, None) w1 ->
  GetCookie req CookieRemember = (token, true) ->
  exists pid' tail,
    trace (final_world (Authenticate req w'))
    = trace w' ++ EvStorer (CallUseRememberToken pid' hash) :: tail /\
    (~ In ";"%byte (list_byte_of_string pid) -> pid' = pid) /\
    (In ";"%byte (list_byte_of_string pid) ->
     (exists suffix,
        list_byte_of_string pid
        = list_byte_of_string pid' ++ ";"%byte :: suffix) /\
     pid' <> pid).
Proof.
  intros Hgen Hget.
  destruct (GenerateToken_inv pid w hash token w1 Hgen)
    as (nonce & rest & Hent & -> & -> & ->).
  assert (Hdec : base64.DecodeString base64.URLEncoding
                   (base64.EncodeToString base64.URLEncoding
                      (rawTokenOf pid nonce)) = Some (rawTokenOf pid nonce)).
  { apply DecodeString_EncodeToString, wellFormed_URL. }
  destruct (Authenticate_consumes req w' _ _ Hget Hdec
              (rawTokenOf_separator pid nonce)) as [tail Htail].
  exists (cookiePID (rawTokenOf pid nonce)), tail.
  split; [exact Htail|]. split.
  - intros Hnin. unfold rawTokenOf. cbn [app].
    rewrite cookiePID_first by exact Hnin.
    apply string_of_list_byte_of_string.
  - intros Hin.
    destruct (first_occurrence _ _ Hin) as (a & b & Hpid & Hnin).
    assert (Hpid' : cookiePID (rawTokenOf pid nonce) = string_of_list_byte a).
    { unfold rawTokenOf. rewrite Hpid. rewrite <- app_assoc. cbn [app].
      apply cookiePID_first, Hnin. }
    rewrite Hpid'. split.
    + exists b. rewrite list_byte_of_string_of_list_byte. exact Hpid.
    + intros Heq. apply (f_equal list_byte_of_string) in Heq.
      rewrite list_byte_of_string_of_list_byte, Hpid in Heq.
      apply (f_equal (@List.length byte)) in Heq.
      rewrite length_app in Heq. cbn [List.length] in Heq. lia.
Qed.

(** C3. A cookie that proves unusable (not URL-safe base64, no separator
    in the decoded bytes, or a pid and hash the storer reports as not
    found) makes [Authenticate] return nil and delete the remember cookie,
    without establishing an identity; without a remember cookie
    [Authenticate] returns nil and leaves the world as it was: no cookie
    deleted, no storer called. *)
Theorem Authenticate_unusable_cookie req w :
  (forall cookie,
      GetCookie req CookieRemember = (cookie, true) ->
      (base64.DecodeString base64.URLEncoding cookie = None \/
       (exists rawToken,
           base64.DecodeString base64.URLEncoding cookie = Some rawToken /\
           ~ In ";"%byte rawToken) \/
       (exists rawToken,
           base64.DecodeString base64.URLEncoding cookie = Some rawToken /\
           In ";"%byte rawToken /\
           fst (UseRememberToken (cookiePID rawToken) (cookieHash rawToken)
                  (store w)) = Some ErrTokenNotFound)) ->
      exists w' evs,
        Authenticate req w = Ret None w' /\
        trace w' = trace w ++ evs /\
        In (EvDelCookie CookieRemember) evs /\
        existsb establishes evs = false) /\
  (snd (GetCookie req CookieRemember) = false ->
   Authenticate req w = Ret None w).
Proof.
  split.
  - intros cookie Hget [Hdec | [(rawToken & Hdec & Hsep)
                               | (rawToken & Hdec & Hsep & Huse)]].
    + eexists _, _. split; [eapply Authenticate_undecodable; eassumption|].
      split; [reflexivity|]. split; [left; reflexivity | reflexivity].
    + eexists _, _. split; [eapply Authenticate_no_separator; eassumption|].
      split; [reflexivity|]. split; [left; reflexivity | reflexivity].
    + destruct (UseRememberToken (cookiePID rawToken) (cookieHash rawToken)
                  (store w)) as [err s1] eqn:E.
      cbn [fst] in Huse. subst err.
      eexists _, _. split; [eapply Authenticate_not_found; eassumption|].
      split; [reflexivity|].
      split; [right; right; left; reflexivity | reflexivity].
  - apply Authenticate_no_cookie.
Qed.

(** C4, as the code has it. Infrastructure faults fail closed, path by
    path.  An error of the consume call other than token-not-found is
    returned as it is.  When the generation of the replacement fails,
    the error [GenerateToken] returned is returned as it is (the error
    of the random source wrapped with a message).  When the replacement
    cannot be persisted, what is returned is not the storer's error but
    that error wrapped with the message "failed to save me token".  On
    all three paths all that has been done is to call the storer: no
    session entry and no cookie is written. *)
Theorem Authenticate_infrastructure_fault req w cookie rawToken :
  GetCookie req CookieRemember = (cookie, true) ->
  base64.DecodeString base64.URLEncoding cookie = Some rawToken ->
  In ";"%byte rawToken ->
  let pid := cookiePID rawToken in
  let hash := cookieHash rawToken in
  let consumed := EvStorer (CallUseRememberToken pid hash) in
  (forall fault s1,
      UseRememberToken pid hash (store w) = (Some fault, s1) ->
      fault <> ErrTokenNotFound ->
      Authenticate req w
      = Ret (Some fault) (mkWorld s1 (entropy w) (trace w ++ [consumed]))) /\
  (forall s1 hash' token' fault w',
      UseRememberToken pid hash (store w) = (None, s1) ->
      GenerateToken pid (mkWorld s1 (entropy w) (trace w ++ [consumed]))
      = Ret (hash', token', Some fault) w' ->
      Authenticate req w = Ret (Some fault) w' /\
      store w' = s1 /\ trace w' = trace w ++ [consumed] /\
      exists cause,
        fault = Wrap cause "failed to create remember me nonce" /\
        (entropy w = [] \/ exists rest, entropy w = RandError cause :: rest)) /\
  (forall s1 nonce rest fault s2,
      UseRememberToken pid hash (store w) = (None, s1) ->
      entropy w = RandBytes nonce :: rest ->
      AddRememberToken pid (cookieHash (rawTokenOf pid nonce)) s1
      = (Some fault, s2) ->
      Authenticate req w
      = Ret (Some (Wrap fault "failed to save me token"))
          (mkWorld s2 rest
             (trace w ++
              [consumed;
               EvStorer (CallAddRememberToken pid
                           (cookieHash (rawTokenOf pid nonce)))]))) /\
  (forall err w',
      Authenticate req w = Ret (Some err) w' ->
      exists evs,
        trace w' = trace w ++ evs /\
        forallb isStorerCall evs = true /\
        existsb establishes evs = false).
Proof.
  intros Hget Hdec Hsep pid hash consumed.
  split; [|split; [|split]].
  - intros fault s1 Huse Hne.
    eapply Authenticate_use_error; eassumption.
  - intros s1 hash' token' fault w' Huse Hgen.
    destruct (entropy w) as [|[nonce|cause] rest] eqn:Hent.
    + rewrite GenerateToken_exhausted in Hgen by reflexivity.
      inversion Hgen; subst; clear Hgen.
      split; [eapply Authenticate_rand_exhausted; eassumption|].
      split; [reflexivity|]. split; [reflexivity|].
      eexists. split; [reflexivity | left; reflexivity].
    + rewrite (GenerateToken_ok pid _ nonce rest) in Hgen by reflexivity.
      discriminate.
    + rewrite (GenerateToken_rand_error pid _ cause rest) in Hgen
        by reflexivity.
      inversion Hgen; subst; clear Hgen.
      split; [eapply Authenticate_rand_error; eassumption|].
      split; [reflexivity|]. split; [reflexivity|].
      eexists. split; [reflexivity | right; eexists; reflexivity].
  - intros s1 nonce rest fault s2 Huse Hent Hadd.
    eapply Authenticate_add_error; eassumption.
  - intros err w' Hrun.
    destruct (UseRememberToken pid hash (store w)) as [[e|] s1] eqn:Huse.
    { destruct (error_not_found_dec e) as [->|Hne].
      - erewrite Authenticate_not_found in Hrun by eassumption.
        discriminate.
      - erewrite Authenticate_use_error in Hrun by eassumption.
        inversion Hrun; subst. eexists. repeat split; reflexivity. }
    destruct (entropy w) as [|[nonce|cause] rest] eqn:Hent.
    + erewrite Authenticate_rand_exhausted in Hrun by eassumption.
      inversion Hrun; subst. eexists. repeat split; reflexivity.
    + destruct (AddRememberToken pid (cookieHash (rawTokenOf pid nonce)) s1)
        as [[e|] s2] eqn:Hadd.
      * erewrite Authenticate_add_error in Hrun by eassumption.
        inversion Hrun; subst. eexists. repeat split; reflexivity.
      * erewrite Authenticate_rotates in Hrun by eassumption.
        discriminate.
    + erewrite Authenticate_rand_error in Hrun by eassumption.
      inversion Hrun; subst. eexists. repeat split; reflexivity.
Qed.

(** C5. The middleware runs [Authenticate] exactly when the request
    context holds neither a pid nor a user: then the next handler runs in
    the world [Authenticate] left, with one more log line if it returned
    an error; otherwise the next handler runs in the untouched world.
    Either way the next handler runs. *)
Theorem Middleware_calls_next (next : Request U -> M S unit) r w :
  (Value (reqContext r) CTXKeyPID = anyNil ->
   Value (reqContext r) CTXKeyUser = anyNil ->
   exists err w1,
     Authenticate r w = Ret err w1 /\
     Middleware next r w
     = next r
         match err with
         | Some e =>
             logged w1
               [EvErrorf "failed to authenticate user via remember me: %+v" e]
         | None => w1
         end) /\
  (Value (reqContext r) CTXKeyPID <> anyNil \/
   Value (reqContext r) CTXKeyUser <> anyNil ->
   Middleware next r w = next r w) /\
  exists w', Middleware next r w = next r w'.
Proof.
  assert (Hrun : Value (reqContext r) CTXKeyPID = anyNil ->
                 Value (reqContext r) CTXKeyUser = anyNil ->
                 exists err w1,
                   Authenticate r w = Ret err w1 /\
                   Middleware next r w
                   = next r
                       match err with
                       | Some e =>
                           logged w1
                             [EvErrorf "failed to authenticate user via remember me: %+v" e]
                       | None => w1
                       end).
  { intros Hpid Huser.
    destruct (Authenticate_returns r w) as (err & w1 & Hauth).
    exists err, w1. split; [exact Hauth|].
    unfold Middleware. rewrite Hpid, Huser.
    unfold bind. rewrite Hauth. destruct err; reflexivity. }
  assert (Hskip : Value (reqContext r) CTXKeyPID <> anyNil \/
                  Value (reqContext r) CTXKeyUser <> anyNil ->
                  Middleware next r w = next r w).
  { intros Hcached. unfold Middleware.
    destruct (Value (reqContext r) CTXKeyPID) eqn:Hpid;
      destruct (Value (reqContext r) CTXKeyUser) eqn:Huser;
      try reflexivity.
    destruct Hcached as [H|H]; exfalso; apply H; reflexivity. }
  split; [exact Hrun|]. split; [exact Hskip|].
  destruct (Value (reqContext r) CTXKeyPID) eqn:Hpid.
  1: destruct (Value (reqContext r) CTXKeyUser) eqn:Huser.
  1: { destruct (Hrun eq_refl eq_refl) as (err & w1 & _ & Hm).
       eexists. exact Hm. }
  all: exists w; apply Hskip;
    first [ left; rewrite ?Hpid; discriminate
          | right; rewrite ?Huser; discriminate ].
Qed.


(** *** The identity cache *)

Lemma loads_app (t1 t2 : list Event) : loads (t1 ++ t2) = (loads t1 + loads t2)%nat.
Proof. unfold loads. rewrite filter_app, length_app. reflexivity. Qed.

Lemma Value_WithValue (ctx : Context U) (key : contextKey) (val : any U) :
  Value (WithValue ctx key val) key = val.
Proof. unfold WithValue. cbn [Value]. rewrite String.eqb_refl. reflexivity. Qed.

Lemma LoadCurrentUser_cached r w u :
  Value (reqContext r) CTXKeyUser = anyUser u ->
  LoadCurrentUser r w = Ret (Some u, None, r) w.
Proof. intros H. unfold LoadCurrentUser. rewrite H. reflexivity. Qed.

(** Resolving the pid reads the context and the session only. *)
Lemma LoadCurrentUserID_pure r w x w0 :
  LoadCurrentUserID r w = Ret x w0 -> w0 = w.
Proof.
  unfold LoadCurrentUserID, CurrentUserID, bind, ret, panic.
  destruct (Value (reqContext r) CTXKeyPID); try discriminate.
  - destruct (GetSession r SessionKey) as [pid ok].
    destruct (String.length pid =? 0)%nat; intros H; inversion H; reflexivity.
  - intros H; inversion H; reflexivity.
Qed.

(** A first resolution that has to go to the storer: it loads once, and
    the request it hands back carries the user. *)
Lemma LoadCurrentUser_loads r w u r1 w1 :
  Value (reqContext r) CTXKeyUser = anyNil ->
  LoadCurrentUser r w = Ret (Some u, None, r1) w1 ->
  Value (reqContext r1) CTXKeyUser = anyUser u /\
  exists pid, trace w1 = trace w ++ [EvStorer (CallLoad pid)].
Proof.
  intros Hnil H. unfold LoadCurrentUser in H. rewrite Hnil in H.
  unfold bind at 1 in H.
  destruct (LoadCurrentUserID r w) as [[[pid err] r'] w0|p w0] eqn:HID;
    [|discriminate].
  apply LoadCurrentUserID_pure in HID. subst w0.
  destruct err; [discriminate|].
  destruct (String.length pid =? 0)%nat; [discriminate|].
  unfold currentUser, storer_Load, storer_call, bind, ret in H.
  destruct (Load (reqContext r') pid (store w)) as [[user err] s'].
  destruct err; [discriminate|].
  inversion H; subst. cbn [reqContext WithContext trace].
  rewrite Value_WithValue. split; [reflexivity | eexists; reflexivity].
Qed.

(** C6, as the code has it. With a user attached to the request
    context, [LoadCurrentUser] returns that user and leaves the world as
    it was, calling no storer; and when no user was attached and a first
    call has resolved one, the second call on the request the first
    handed back returns the same user from the context, so that the two
    calls together make exactly one storage load. *)
Theorem LoadCurrentUser_loads_once r w :
  (forall u,
      Value (reqContext r) CTXKeyUser = anyUser u ->
      LoadCurrentUser r w = Ret (Some u, None, r) w) /\
  (forall u r1 w1,
      Value (reqContext r) CTXKeyUser = anyNil ->
      LoadCurrentUser r w = Ret (Some u, None, r1) w1 ->
      exists w2,
        LoadCurrentUser r1 w1 = Ret (Some u, None, r1) w2 /\
        loads (trace w2) = (loads (trace w) + 1)%nat).
Proof.
  split.
  - intros u. apply LoadCurrentUser_cached.
  - intros u r1 w1 Hnil Hfirst.
    destruct (LoadCurrentUser_loads r w u r1 w1 Hnil Hfirst)
      as (Hattached & pid & Htrace).
    exists w1. split.
    + apply LoadCurrentUser_cached, Hattached.
    + rewrite Htrace, loads_app. reflexivity.
Qed.

(** *** The hooks *)

(** C7, as the code has it. When the current user resolves,
    [AfterPasswordReset] deletes the remember cookie, logs, asks the
    storer to delete all remember tokens of the user's pid and returns
    [handled = false] with whatever error that deletion gave; when
    resolving the user fails it returns [handled = false] with that error
    and does nothing else; it never returns [handled = true]. *)
Theorem AfterPasswordReset_revokes req (handled : bool) w :
  (forall u w1 err s2,
      CurrentUser req w = Ret (Some u, None) w1 ->
      DelRememberTokens (GetPID u) (store w1) = (err, s2) ->
      AfterPasswordReset req handled w
      = Ret (false, err)
          (mkWorld s2 (entropy w1)
             (trace w1 ++
              [EvDelCookie CookieRemember;
               EvInfof "deleting tokens and rm cookies for user %s due to password reset"
                 [GetPID u];
               EvStorer (CallDelRememberTokens (GetPID u))]))) /\
  (forall i e w1,
      CurrentUser req w = Ret (i, Some e) w1 ->
      AfterPasswordReset req handled w = Ret (false, Some e) w1) /\
  (forall h e w',
      AfterPasswordReset req handled w = Ret (h, e) w' -> h = false).
Proof.
  split; [|split].
  - intros u w1 err s2 Huser Hdel.
    unfold AfterPasswordReset, bind. rewrite Huser.
    unfold DelCookie, Infof, emit, storer_DelRememberTokens, storer_call, ret.
    cbn [store entropy trace]. rewrite Hdel.
    rewrite <- !app_assoc. reflexivity.
  - intros i e w1 Huser.
    unfold AfterPasswordReset, bind. rewrite Huser. reflexivity.
  - intros h e w' H.
    unfold AfterPasswordReset, bind in H.
    destruct (CurrentUser req w) as [[i [err|]] w1|p w1]; try discriminate.
    + inversion H. reflexivity.
    + destruct i as [u|]; [|discriminate].
      unfold DelCookie, Infof, emit, storer_DelRememberTokens, storer_call,
        ret, panic in H.
      cbn [store entropy trace] in H.
      destruct (DelRememberTokens (GetPID u) (store w1)) as [err s2].
      inversion H. reflexivity.
Qed.

Lemma RememberAfterAuth_opted_out req (handled : bool) w :
  Value (reqContext req) CTXKeyRM = anyNil \/
  Value (reqContext req) CTXKeyRM = anyBool false ->
  RememberAfterAuth req handled w = Ret (false, None) w.
Proof.
  intros [H|H]; unfold RememberAfterAuth; rewrite H; reflexivity.
Qed.

(** The body of [RememberAfterAuth] past the opt-in test. *)
Lemma RememberAfterAuth_opted_in req (handled : bool) w (v : any U) :
  Value (reqContext req) CTXKeyRM = v ->
  v <> anyNil -> v <> anyBool false ->
  RememberAfterAuth req handled w
  = bind (CurrentUserP req)
      (fun user =>
         bind (GenerateToken (GetPID user))
           (fun x =>
              match x with
              | (hash, token, err) =>
                  match err with
                  | Some e => ret (false, Some e)
                  | None =>
                      bind (storer_AddRememberToken (GetPID user) hash)
                        (fun err =>
                           match err with
                           | Some e => ret (false, Some e)
                           | None =>
                               bind (PutCookie CookieRemember token)
                                 (fun _ => ret (false, None))
                           end)
                  end
              end)) w.
Proof.
  intros Hv Hnil Hfalse. unfold RememberAfterAuth. rewrite Hv.
  destruct v as [|[|]| | |]; try reflexivity; congruence.
Qed.

Lemma CurrentUserP_resolved req w u w1 :
  CurrentUser req w = Ret (Some u, None) w1 ->
  CurrentUserP req w = Ret u w1.
Proof. intros H. unfold CurrentUserP, bind. rewrite H. reflexivity. Qed.

(** C8. Without the opt-in value, or with the value [false],
    [RememberAfterAuth] returns [(false, nil)] and leaves the world as it
    was: no token, no storer call, no cookie.  Whenever it returns, on any
    path, the handled flag is [false]; and it does return whenever the
    current user resolves. *)
Theorem RememberAfterAuth_never_handles req (handled : bool) w :
  (Value (reqContext req) CTXKeyRM = anyNil \/
   Value (reqContext req) CTXKeyRM = anyBool false ->
   RememberAfterAuth req handled w = Ret (false, None) w) /\
  (forall h e w',
      RememberAfterAuth req handled w = Ret (h, e) w' -> h = false) /\
  (forall u w1,
      CurrentUser req w = Ret (Some u, None) w1 ->
      exists e w', RememberAfterAuth req handled w = Ret (false, e) w').
Proof.
  split; [apply RememberAfterAuth_opted_out|].
  destruct (Value (reqContext req) CTXKeyRM) as [|[|]| | |] eqn:Hv.
  1, 3: (split;
         [ intros h e w' H;
           rewrite RememberAfterAuth_opted_out in H by (rewrite Hv; auto);
           inversion H; reflexivity
         | intros u' w1 _; eexists _, _;
           apply RememberAfterAuth_opted_out; rewrite Hv; auto ]).
  all: rewrite (RememberAfterAuth_opted_in req handled w _ Hv)
         by discriminate;
    match goal with
    | |- context [bind (CurrentUserP _) ?k] => set (body := k)
    end;
    assert (Hbody : forall user w1,
               exists e w', body user w1 = Ret (false, e) w')
      by (intros user w1; subst body; cbv beta;
          unfold GenerateToken, rand_Read, storer_AddRememberToken,
            storer_call, PutCookie, emit, bind, ret;
          destruct (entropy w1) as [|[bs|err] rest];
          try (eexists _, _; reflexivity);
          cbn [store entropy trace];
          destruct (AddRememberToken _ _ (store w1)) as [[e|] s2];
          eexists _, _; reflexivity);
    unfold bind;
    destruct (CurrentUserP req w) as [user w1|p w1] eqn:HP;
    [ destruct (Hbody user w1) as (e & w' & Hb); rewrite Hb; split;
      [ intros h e0 w0 H; inversion H; reflexivity
      | intros; eexists _, _; reflexivity ]
    | split; [discriminate|]; intros u' w0 Hu;
      rewrite (CurrentUserP_resolved _ _ _ _ Hu) in HP; discriminate ].
Qed.

(** C10, as the code has it. Only a nil value and the boolean [false]
    under the remember-me key suppress remembering.  With any other
    value, be it [true] or a value of another type such as the string
    "false", the hook goes on to remember: provided the user resolves,
    the random source answers and the storer accepts the hash,
    [RememberAfterAuth] generates a token for the user's pid, has its hash
    persisted, writes the token as the remember cookie and returns
    [(false, nil)]. *)
Theorem RememberAfterAuth_opt_in req (handled : bool) w (v : any U)
  u w1 nonce rest s2 :
  Value (reqContext req) CTXKeyRM = v ->
  v <> anyNil -> v <> anyBool false ->
  CurrentUser req w = Ret (Some u, None) w1 ->
  entropy w1 = RandBytes nonce :: rest ->
  let rawToken := rawTokenOf (GetPID u) nonce in
  let hash := cookieHash rawToken in
  let token := base64.EncodeToString base64.URLEncoding rawToken in
  AddRememberToken (GetPID u) hash (store w1) = (None, s2) ->
  RememberAfterAuth req handled w
  = Ret (false, None)
      (mkWorld s2 rest
         (trace w1 ++
          [EvStorer (CallAddRememberToken (GetPID u) hash);
           EvPutCookie CookieRemember token])).
Proof.
  intros Hv Hnil Hfalse Huser Hent rawToken hash token Hadd.
  rewrite (RememberAfterAuth_opted_in req handled w v Hv Hnil Hfalse).
  erewrite bind_Ret by (apply CurrentUserP_resolved; exact Huser).
  erewrite bind_Ret by (apply GenerateToken_ok; exact Hent).
  unfold storer_AddRememberToken, storer_call, PutCookie, emit, bind, ret.
  cbn [store entropy trace]. fold rawToken. fold hash. rewrite Hadd.
  cbn [store entropy trace]. rewrite <- app_assoc. reflexivity.
Qed.

End Properties.

(** ** The in-memory storer keeps the contract *)

Lemma sameToken_spec (pid hash : string) (t : string * string) :
  Mem.sameToken pid hash t = true <-> t = (pid, hash).
Proof.
  unfold Mem.sameToken. destruct t as [p h]. cbn [fst snd].
  rewrite andb_true_iff, !String.eqb_eq.
  split; [intros [-> ->]; reflexivity | intros H; inversion H; auto].
Qed.

Lemma existsb_sameToken_filter (p h pid hash : string)
  (l : list (string * string)) :
  existsb (Mem.sameToken p h)
    (filter (fun t => negb (Mem.sameToken pid hash t)) l)
  = existsb (Mem.sameToken p h) l && negb (String.eqb p pid && String.eqb h hash).
Proof.
  induction l as [|t l IH]; [reflexivity|].
  cbn [filter existsb].
  destruct (Mem.sameToken pid hash t) eqn:E1; cbn [negb].
  - rewrite IH. apply sameToken_spec in E1. subst t.
    unfold Mem.sameToken at 2. cbn [fst snd].
    rewrite (String.eqb_sym pid p), (String.eqb_sym hash h).
    destruct (String.eqb p pid && String.eqb h hash); cbn;
      [rewrite !andb_false_r; reflexivity | reflexivity].
  - cbn [existsb]. rewrite IH.
    destruct (Mem.sameToken p h t) eqn:E2; [|reflexivity].
    cbn [orb]. apply sameToken_spec in E2. subst t.
    unfold Mem.sameToken in E1. cbn [fst snd] in E1. rewrite E1. reflexivity.
Qed.

Lemma Mem_use_is_one_shot :
  use_is_one_shot (Storer := Mem.MemStorer) (View := Mem.MemView).
Proof.
  intros pid hash s s' H. cbn in H. unfold Mem.memUse in H.
  destruct (Mem.offline s); [discriminate|].
  destruct (existsb (Mem.sameToken pid hash) (Mem.tokens s)) eqn:E;
    [|discriminate].
  inversion H; subst; clear H. cbn [hasToken Mem.MemView Mem.tokens].
  split; [exact E|]. split.
  - rewrite existsb_sameToken_filter, !String.eqb_refl.
    apply andb_false_r.
  - intros p h Hne. rewrite existsb_sameToken_filter.
    destruct (String.eqb p pid) eqn:Ep; destruct (String.eqb h hash) eqn:Eh;
      cbn; rewrite ?andb_true_r; try reflexivity.
    apply String.eqb_eq in Ep, Eh. subst. congruence.
Qed.

Lemma Mem_add_stores_pair :
  add_stores_pair (Storer := Mem.MemStorer) (View := Mem.MemView).
Proof.
  intros pid hash s s' H. cbn in H. unfold Mem.memAdd in H.
  destruct (Mem.offline s); [discriminate|].
  destruct (Mem.full s); [discriminate|].
  inversion H; subst; clear H.
  cbn [hasToken Mem.MemView Mem.tokens existsb].
  split.
  - unfold Mem.sameToken at 1. cbn [fst snd]. rewrite !String.eqb_refl.
    reflexivity.
  - intros p h Hne.
    destruct (Mem.sameToken p h (pid, hash)) eqn:E; [|reflexivity].
    apply sameToken_spec in E. congruence.
Qed.

(* ================================================================== *)
(** ** The properties at work on the in-memory storer *)

Import Mem.

Lemma GenerateToken_round_trip_u42 :
  List.length zeroNonce = nNonceSize /\
  GenerateToken "u42" (world fresh42 [RandBytes zeroNonce])
  = Ret (hash42, token42, None) (world fresh42 []) /\
  base64.DecodeString base64.URLEncoding token42 = Some raw42.
Proof.
  split; [reflexivity|].
  destruct (GenerateToken_round_trip "u42" zeroNonce []
              (world fresh42 [RandBytes zeroNonce]) eq_refl eq_refl)
    as (Hgen & Hdec & _).
  split; [exact Hgen | exact Hdec].
Defined.

Lemma separator_in_raw42 : In ";"%byte raw42.
Proof. apply rawTokenOf_separator. Qed.

Lemma token42_decodes :
  base64.DecodeString base64.URLEncoding token42 = Some raw42.
Proof. apply DecodeString_EncodeToString, wellFormed_URL. Qed.

(** The token issued for "u42" is consumed under "u42"; the token issued
    for "a;b" is consumed under "a". *)
Lemma Authenticate_extracted_pid_u42 :
  (exists tail,
      trace (final_world
               (Authenticate (withCookie token42) (world store42 [])))
      = EvStorer (CallUseRememberToken "u42" hash42) :: tail) /\
  (exists hash token w1,
      GenerateToken "a;b" (world store42 [RandBytes zeroNonce])
      = Ret (hash, token, None) w1 /\
      exists pid' tail,
        trace (final_world
                 (Authenticate (withCookie token) (world store42 [])))
        = EvStorer (CallUseRememberToken pid' hash) :: tail /\
        pid' <> "a;b").
Proof.
  split.
  - destruct (Authenticate_extracted_pid (Keys := keys) "u42"
                (world fresh42 [RandBytes zeroNonce]) hash42 token42
                (world fresh42 []) (withCookie token42) (world store42 [])
                eq_refl eq_refl)
      as (pid' & tail & Htrace & Hsame & _).
    exists tail. rewrite <- Hsame; [exact Htrace|].
    vm_compute. intuition discriminate.
  - eexists _, _, _. split; [reflexivity|].
    edestruct (Authenticate_extracted_pid (Keys := keys) "a;b"
                 (world store42 [RandBytes zeroNonce]))
      as (pid' & tail & Htrace & _ & Hprefix);
      [reflexivity | | exists pid', tail; split; [exact Htrace|]].
    + reflexivity.
    + apply Hprefix. vm_compute. auto.
Defined.

(** Cookies that prove unusable: "!!!" is not base64, "dTQy" decodes to
    "u42" without a separator, and the token of "u42" is unknown to a
    store that never issued it. *)
Lemma Authenticate_unusable_cookie_examples :
  (exists w',
      Authenticate (withCookie "!!!") (world store42 []) = Ret None w' /\
      In (EvDelCookie "rm") (trace w')) /\
  (exists w',
      Authenticate (withCookie "dTQy") (world store42 []) = Ret None w' /\
      In (EvDelCookie "rm") (trace w')) /\
  (exists w',
      Authenticate (withCookie token42) (world fresh42 []) = Ret None w' /\
      In (EvDelCookie "rm") (trace w')) /\
  Authenticate anonymous (world store42 []) = Ret None (world store42 []).
Proof.
  split; [|split; [|split]].
  - destruct (proj1 (Authenticate_unusable_cookie (Keys := keys) (withCookie "!!!")
                       (world store42 [])) "!!!" eq_refl)
      as (w' & evs & Hrun & Htrace & Hdel & _).
    + left. reflexivity.
    + exists w'. split; [exact Hrun|]. rewrite Htrace. exact Hdel.
  - destruct (proj1 (Authenticate_unusable_cookie (Keys := keys) (withCookie "dTQy")
                       (world store42 [])) "dTQy" eq_refl)
      as (w' & evs & Hrun & Htrace & Hdel & _).
    + right. left. exists (list_byte_of_string "u42").
      split; [reflexivity|]. vm_compute. intuition discriminate.
    + exists w'. split; [exact Hrun|]. rewrite Htrace. exact Hdel.
  - destruct (proj1 (Authenticate_unusable_cookie (Keys := keys) (withCookie token42)
                       (world fresh42 [])) token42 eq_refl)
      as (w' & evs & Hrun & Htrace & Hdel & _).
    + right. right. exists raw42.
      split; [exact token42_decodes|].
      split; [exact separator_in_raw42 | reflexivity].
    + exists w'. split; [exact Hrun|]. rewrite Htrace. exact Hdel.
  - apply (proj2 (Authenticate_unusable_cookie (Keys := keys) anonymous (world store42 []))).
    reflexivity.
Defined.

(** Faults of the infrastructure: the store is unreachable, the random
    source fails, the store has no room for the replacement. *)
Lemma Authenticate_infrastructure_fault_examples :
  (exists w',
      Authenticate (withCookie token42) (world offline42 [])
      = Ret (Some errOffline) w' /\
      existsb establishes (trace w') = false) /\
  (exists w',
      Authenticate (withCookie token42)
        (world store42 [RandError (errorString "entropy source failed")])
      = Ret (Some (Wrap (errorString "entropy source failed")
                     "failed to create remember me nonce")) w' /\
      store w' = fresh42) /\
  (exists w',
      Authenticate (withCookie token42)
        (world full42 [RandBytes otherNonce])
      = Ret (Some (Wrap errFull "failed to save me token")) w' /\
      existsb establishes (trace w') = false).
Proof.
  split; [|split].
  - eexists. split.
    + apply (proj1 (Authenticate_infrastructure_fault (Keys := keys)
                      (withCookie token42) (world offline42 []) token42
                      raw42 eq_refl token42_decodes separator_in_raw42)
               errOffline offline42);
        [reflexivity | discriminate].
    + reflexivity.
  - destruct (proj1 (proj2 (Authenticate_infrastructure_fault (Keys := keys)
                (withCookie token42)
                (world store42
                   [RandError (errorString "entropy source failed")])
                token42 raw42 eq_refl token42_decodes separator_in_raw42))
                fresh42 "" ""
                (Wrap (errorString "entropy source failed")
                   "failed to create remember me nonce")
                (mkWorld fresh42 []
                   [EvStorer (CallUseRememberToken (cookiePID raw42)
                                (cookieHash raw42))]))
      as (Hrun & Hstore & _).
    + vm_compute. reflexivity.
    + vm_compute. reflexivity.
    + eexists. split; [exact Hrun | exact Hstore].
  - eexists. split.
    + apply (proj1 (proj2 (proj2 (Authenticate_infrastructure_fault
                      (Keys := keys)
                      (withCookie token42)
                      (world full42 [RandBytes otherNonce]) token42
                      raw42 eq_refl token42_decodes separator_in_raw42)))
               (mkStore [u42] [] false true) otherNonce [] errFull
               (mkStore [u42] [] false true));
        [vm_compute; reflexivity | reflexivity | vm_compute; reflexivity].
    + reflexivity.
Defined.

(** C4 fails when the replacement cannot be persisted: the storer's
    error is "storage full", and what [Authenticate] returns is another
    error, that one wrapped with a message. *)
Lemma Authenticate_persistence_fault_is_wrapped :
  let w := world full42 [RandBytes otherNonce] in
  exists s1 s2 err w',
    UseRememberToken (cookiePID raw42) (cookieHash raw42) (store w)
    = (None, s1) /\
    AddRememberToken (cookiePID raw42)
      (cookieHash (rawTokenOf (cookiePID raw42) otherNonce)) s1
    = (Some errFull, s2) /\
    Authenticate (withCookie token42) w = Ret (Some err) w' /\
    err <> errFull /\
    err = withMessage errFull "failed to save me token".
Proof.
  cbv zeta. eexists _, _, _, _.
  split; [vm_compute; reflexivity|].
  split; [vm_compute; reflexivity|].
  split; [vm_compute; reflexivity|].
  split; [discriminate | reflexivity].
Qed.

(** The middleware in front of a handler: an anonymous request with an
    unknown token is served after the cookie is dropped; with the store
    unreachable the error is logged and the request still served; with a
    pid already in the context the request is served at once. *)
Lemma Middleware_calls_next_examples :
  (exists w1,
      Authenticate (withCookie token42) (world fresh42 []) = Ret None w1 /\
      Middleware served (withCookie token42) (world fresh42 [])
      = served (withCookie token42) w1) /\
  (exists w1,
      Authenticate (withCookie token42) (world offline42 [])
      = Ret (Some errOffline) w1 /\
      Middleware served (withCookie token42) (world offline42 [])
      = served (withCookie token42)
          (logged w1
             [EvErrorf "failed to authenticate user via remember me: %+v"
                errOffline])) /\
  Middleware served (withPID "u42") (world store42 [])
  = served (withPID "u42") (world store42 []).
Proof.
  split; [|split].
  - destruct (proj1 (Middleware_calls_next (Keys := keys) served
                       (withCookie token42) (world fresh42 []))
                eq_refl eq_refl) as (err & w1 & Hauth & Hmid).
    assert (Herr : err = None).
    { vm_compute in Hauth. inversion Hauth. reflexivity. }
    subst err. exists w1. split; [exact Hauth | exact Hmid].
  - destruct (proj1 (Middleware_calls_next (Keys := keys) served
                       (withCookie token42) (world offline42 []))
                eq_refl eq_refl) as (err & w1 & Hauth & Hmid).
    assert (Herr : err = Some errOffline).
    { vm_compute in Hauth. inversion Hauth. reflexivity. }
    subst err. exists w1. split; [exact Hauth | exact Hmid].
  - apply (proj1 (proj2 (Middleware_calls_next (Keys := keys) served
                           (withPID "u42") (world store42 [])))).
    left. discriminate.
Defined.

(** The identity cache: a user in the context is returned as is; a
    session pid is resolved with one load, and resolving again on the
    request handed back loads nothing more. *)
Lemma LoadCurrentUser_loads_once_examples :
  LoadCurrentUser (withUser u42) (world store42 [])
  = Ret (Some u42, None, withUser u42) (world store42 []) /\
  (exists r1 w1 w2,
      LoadCurrentUser (withSession "u42") (world store42 [])
      = Ret (Some u42, None, r1) w1 /\
      LoadCurrentUser r1 w1 = Ret (Some u42, None, r1) w2 /\
      loads (trace w2) = 1%nat).
Proof.
  split.
  - apply (proj1 (LoadCurrentUser_loads_once (Keys := keys) (withUser u42)
                    (world store42 []))).
    reflexivity.
  - eexists _, _.
    edestruct (proj2 (LoadCurrentUser_loads_once (Keys := keys)
                        (withSession "u42") (world store42 [])) u42)
      as (w2 & Hsecond & Hloads);
      [reflexivity | vm_compute; reflexivity |].
    exists w2. split; [vm_compute; reflexivity|].
    split; [exact Hsecond | exact Hloads].
Defined.

(** Password reset: for the user of the session the cookie is deleted
    and the tokens are gone; when the deletion fails, the error comes
    back with [handled = false]. *)
Lemma AfterPasswordReset_revokes_examples :
  (exists w',
      AfterPasswordReset (withSession "u42") false (world store42 [])
      = Ret (false, None) w' /\
      tokens (store w') = [] /\
      In (EvDelCookie "rm") (trace w')) /\
  (exists w',
      AfterPasswordReset (withUser u42) false (world offline42 [])
      = Ret (false, Some errOffline) w') /\
  AfterPasswordReset (withSession "u42") false (world offline42 [])
  = Ret (false, Some errOffline)
      (logged (world offline42 []) [EvStorer (CallLoad "u42")]).
Proof.
  split; [|split].
  - eexists. split.
    + apply (proj1 (AfterPasswordReset_revokes (Keys := keys)
                      (withSession "u42") false (world store42 []))
               u42 (logged (world store42 []) [EvStorer (CallLoad "u42")])
               None fresh42);
        vm_compute; reflexivity.
    + split; [reflexivity | right; left; reflexivity].
  - eexists.
    apply (proj1 (AfterPasswordReset_revokes (Keys := keys)
                    (withUser u42) false (world offline42 []))
             u42 (world offline42 []) (Some errOffline) offline42);
      vm_compute; reflexivity.
  - apply (proj1 (proj2 (AfterPasswordReset_revokes (Keys := keys)
                           (withSession "u42") false (world offline42 [])))
             None).
    vm_compute. reflexivity.
Defined.

(** C7 fails for a request without a user: nothing resolves, the hook
    returns the error at once, the cookie stays and so do the tokens. *)
Lemma AfterPasswordReset_anonymous :
  let w := world store42 [] in
  AfterPasswordReset anonymous false w = Ret (false, Some ErrUserNotFound) w /\
  ~ In (EvDelCookie CookieRemember)
       (trace (final_world (AfterPasswordReset anonymous false w))) /\
  (forall pid,
      ~ In (EvStorer (CallDelRememberTokens pid))
           (trace (final_world (AfterPasswordReset anonymous false w)))) /\
  hasToken (store (final_world (AfterPasswordReset anonymous false w)))
    "u42" hash42 = true.
Proof.
  cbv zeta.
  assert (H : AfterPasswordReset anonymous false (world store42 [])
              = Ret (false, Some ErrUserNotFound) (world store42 []))
    by (vm_compute; reflexivity).
  rewrite H. cbn [final_world world trace store].
  split; [reflexivity|]. split; [intros []|].
  split; [intros pid []|]. vm_compute. reflexivity.
Qed.

(** The opt-in flag: absent or [false] nothing happens; whatever the
    flag, what comes back is [handled = false]. *)
Lemma RememberAfterAuth_never_handles_examples :
  RememberAfterAuth (withSession "u42") true (world store42 [])
  = Ret (false, None) (world store42 []) /\
  RememberAfterAuth (withFlag (anyBool false) "u42") true (world store42 [])
  = Ret (false, None) (world store42 []) /\
  (exists e w',
      RememberAfterAuth (withFlag (anyBool true) "u42") true
        (world full42 [RandBytes otherNonce])
      = Ret (false, e) w').
Proof.
  split; [|split].
  - apply (proj1 (RememberAfterAuth_never_handles (Keys := keys)
                    (withSession "u42") true (world store42 []))).
    left. reflexivity.
  - apply (proj1 (RememberAfterAuth_never_handles (Keys := keys)
                    (withFlag (anyBool false) "u42") true
                    (world store42 []))).
    right. reflexivity.
  - apply (proj2 (proj2 (RememberAfterAuth_never_handles (Keys := keys)
                           (withFlag (anyBool true) "u42") true
                           (world full42 [RandBytes otherNonce])))
             u42
             (logged (world full42 [RandBytes otherNonce])
                [EvStorer (CallLoad "u42")])).
    vm_compute. reflexivity.
Defined.

(** The string "false" under the remember-me key is an opt-in: the user
    of the session gets a token. *)
Lemma RememberAfterAuth_opt_in_string_false :
  exists hash token w',
    RememberAfterAuth (withFlag (anyString "false") "u42") false
      (world fresh42 [RandBytes zeroNonce])
    = Ret (false, None) w' /\
    tokens (store w') = [("u42", hash)] /\
    trace w'
    = [EvStorer (CallLoad "u42");
       EvStorer (CallAddRememberToken "u42" hash);
       EvPutCookie "rm" token] /\
    hash = hash42 /\ token = token42.
Proof.
  eexists _, _, _. split.
  - apply (RememberAfterAuth_opt_in (Keys := keys)
             (withFlag (anyString "false") "u42") false
             (world fresh42 [RandBytes zeroNonce]) (anyString "false") u42
             (logged (world fresh42 [RandBytes zeroNonce])
                [EvStorer (CallLoad "u42")])
             zeroNonce [] store42 eq_refl);
      [discriminate | discriminate | | reflexivity | ];
      vm_compute; reflexivity.
  - repeat split.
Defined.



(** C6 fails on two inputs.  When the load fails, nothing is attached to
    the request, and resolving again on the request handed back loads
    again: two loads.  For an anonymous request there is nothing to
    load: no load at all. *)
Lemma LoadCurrentUser_twice_counterexample :
  (exists r1 w1,
      LoadCurrentUser (withSession "u42") (world offline42 [])
      = Ret (None, Some errOffline, r1) w1 /\
      loads (trace w1) = 1%nat /\
      loads (trace (final_world (LoadCurrentUser r1 w1))) = 2%nat) /\
  (exists r1 w1,
      LoadCurrentUser anonymous (world store42 [])
      = Ret (None, None, r1) w1 /\
      loads (trace (final_world (LoadCurrentUser r1 w1))) = 0%nat).
Proof.
  split.
  - eexists _, _. split; [vm_compute; reflexivity|].
    split; vm_compute; reflexivity.
  - eexists _, _. split; [vm_compute; reflexivity|].
    vm_compute. reflexivity.
Qed.

(** C10 fails on two inputs, both with the string "false" under the
    remember-me key.  When the storer has no room, the hook returns the
    storer's error: no token is persisted and no cookie written.  For a
    request without a user the hook panics before a token is generated. *)
Lemma RememberAfterAuth_opt_in_counterexample :
  (exists w',
      RememberAfterAuth (withFlag (anyString "false") "u42") false
        (world full42 [RandBytes otherNonce])
      = Ret (false, Some errFull) w' /\
      tokens (store w') = tokens full42 /\
      (forall k v, ~ In (EvPutCookie k v) (trace w'))) /\
  RememberAfterAuth (mkRequest [(CTXKeyRM, anyString "false")] None None)
    false (world store42 [RandBytes otherNonce])
  = Panic (PanicError ErrUserNotFound) (world store42 [RandBytes otherNonce]).
Proof.
  split.
  - eexists. split; [vm_compute; reflexivity|].
    split; [reflexivity|].
    intros k v Hin. cbn in Hin.
    repeat destruct Hin as [Hin|Hin]; try discriminate; contradiction.
  - vm_compute. reflexivity.
Qed.

(* ================================================================== *)
(** * Further properties of the identity cache and of the module *)

Section Cache.

Context {U : Type} {UserU : User U}.
Context {S : Type} {Storer : ServerStorer U S}.
Context {Keys : ClientStateKeys}.

Implicit Types (w : World S) (req r : Request U).

(** Reading the pid never fails and never acts on the world. *)
Lemma CurrentUserID_pure r w x w' :
  CurrentUserID r w = Ret x w' -> snd x = None /\ w' = w.
Proof.
  unfold CurrentUserID, ret, panic.
  destruct (Value (reqContext r) CTXKeyPID); try discriminate.
  - destruct (GetSession r SessionKey) as [pid ok].
    intros H. inversion H. auto.
  - intros H. inversion H. auto.
Qed.

Lemma Value_WithValue_other (ctx : Context U) (k k' : contextKey)
  (val : any U) :
  k <> k' -> Value (WithValue ctx k val) k' = Value ctx k'.
Proof.
  intros Hne. unfold WithValue. cbn [Value].
  destruct (String.eqb_spec k k'); [contradiction | reflexivity].
Qed.

(** An anonymous request: no user and no pid in the context, and no pid
    (or an empty one) in the session. *)
Lemma CurrentUserID_anonymous r w :
  Value (reqContext r) CTXKeyPID = anyNil ->
  fst (GetSession r SessionKey) = "" ->
  CurrentUserID r w = Ret ("", None) w.
Proof.
  intros Hpid Hsess. unfold CurrentUserID. rewrite Hpid.
  destruct (GetSession r SessionKey) as [pid ok]. cbn [fst] in Hsess.
  subst pid. reflexivity.
Qed.

(** X1. For an anonymous request the two ways to resolve the user
    differ: [CurrentUser] reports [ErrUserNotFound], [LoadCurrentUser]
    reports no user and no error and hands the request back as it was;
    neither calls the storer. *)
Theorem anonymous_CurrentUser_vs_LoadCurrentUser r w :
  Value (reqContext r) CTXKeyUser = anyNil ->
  Value (reqContext r) CTXKeyPID = anyNil ->
  fst (GetSession r SessionKey) = "" ->
  CurrentUser r w = Ret (None, Some ErrUserNotFound) w /\
  LoadCurrentUser r w = Ret (None, None, r) w.
Proof.
  intros Huser Hpid Hsess. split.
  - unfold CurrentUser. rewrite Huser.
    erewrite bind_Ret by (apply CurrentUserID_anonymous; assumption).
    reflexivity.
  - unfold LoadCurrentUser. rewrite Huser.
    unfold LoadCurrentUserID. rewrite Hpid.
    erewrite bind_Ret;
      [|erewrite bind_Ret by (apply CurrentUserID_anonymous; assumption);
        reflexivity].
    reflexivity.
Qed.

(** X2. [CurrentUser] does not memoize.  Without a user in the context
    and with a pid, it loads the user under that pid and returns the
    storer's answer as it is; the request is not changed, so asking again
    loads again. *)
Theorem CurrentUser_loads_every_time r w pid res s1 :
  Value (reqContext r) CTXKeyUser = anyNil ->
  CurrentUserID r w = Ret (pid, None) w ->
  pid <> "" ->
  Load (reqContext r) pid (store w) = (res, s1) ->
  let w1 := mkWorld s1 (entropy w) (trace w ++ [EvStorer (CallLoad pid)]) in
  CurrentUser r w = Ret res w1 /\
  loads (trace (final_world (CurrentUser r w1))) = (loads (trace w) + 2)%nat.
Proof.
  intros Huser Hid Hne Hload w1.
  assert (Hlen : (String.length pid =? 0)%nat = false).
  { destruct pid; [congruence | reflexivity]. }
  assert (Hid1 : CurrentUserID r w1 = Ret (pid, None) w1).
  { revert Hid. unfold CurrentUserID, ret, panic.
    destruct (Value (reqContext r) CTXKeyPID); try discriminate.
    - destruct (GetSession r SessionKey) as [p ok].
      intros H. inversion H. reflexivity.
    - intros H. inversion H. reflexivity. }
  split.
  - unfold CurrentUser. rewrite Huser.
    erewrite bind_Ret by exact Hid. cbv beta iota. rewrite Hlen.
    unfold currentUser, storer_Load, storer_call. rewrite Hload. reflexivity.
  - unfold CurrentUser. rewrite Huser.
    erewrite bind_Ret by exact Hid1. cbv beta iota. rewrite Hlen.
    unfold currentUser, storer_Load, storer_call.
    destruct (Load (reqContext r) pid (store w1)) as [res2 s2].
    cbn [final_world trace]. subst w1. cbn [trace].
    rewrite !loads_app. cbn. lia.
Qed.

(** What [LoadCurrentUserID] hands back. *)
Lemma LoadCurrentUserID_inv r w pid err r1 w1 :
  LoadCurrentUserID r w = Ret (pid, err, r1) w1 ->
  w1 = w /\ err = None /\
  reqCookies r1 = reqCookies r /\ reqSession r1 = reqSession r /\
  (pid <> "" -> Value (reqContext r1) CTXKeyPID = anyString pid).
Proof.
  unfold LoadCurrentUserID, CurrentUserID, bind, ret, panic.
  destruct (Value (reqContext r) CTXKeyPID) eqn:Hpid; try discriminate.
  - destruct (GetSession r SessionKey) as [p ok].
    destruct (String.length p =? 0)%nat eqn:Hlen; intros H; inversion H;
      subst; clear H.
    + repeat split; try reflexivity; try congruence.
    + cbn [reqContext WithContext reqCookies reqSession].
      rewrite Value_WithValue. repeat split; reflexivity.
  - intros H. inversion H; subst; clear H.
    repeat split; try reflexivity; try (intros _; exact Hpid).
Qed.

(** X3. [LoadCurrentUserID] agrees with [CurrentUserID], never fails and
    never acts on the world.  The request it hands back differs from the
    given one in the context only: with a non-empty pid it carries that
    pid in its context, with an empty pid it is the request given; asked
    again, it gives the same answer and the same request. *)
Theorem LoadCurrentUserID_caches r w pid err r1 w1 :
  LoadCurrentUserID r w = Ret (pid, err, r1) w1 ->
  w1 = w /\ err = None /\
  CurrentUserID r w = Ret (pid, None) w /\
  reqCookies r1 = reqCookies r /\ reqSession r1 = reqSession r /\
  (pid <> "" -> Value (reqContext r1) CTXKeyPID = anyString pid) /\
  (pid = "" -> r1 = r) /\
  LoadCurrentUserID r1 w = Ret (pid, None, r1) w.
Proof.
  unfold LoadCurrentUserID, CurrentUserID, bind, ret, panic.
  destruct (Value (reqContext r) CTXKeyPID) eqn:Hpid; try discriminate.
  - destruct (GetSession r SessionKey) as [p ok] eqn:Hsess.
    destruct (String.length p =? 0)%nat eqn:Hlen; intros H; inversion H;
      subst; clear H.
    + assert (p = "") by (destruct p; [reflexivity | discriminate]).
      subst p. rewrite Hpid, Hsess. cbn.
      repeat split; try reflexivity; try congruence.
    + cbn [reqContext WithContext reqCookies reqSession].
      rewrite Value_WithValue.
      repeat split; try reflexivity.
      intros ->. discriminate.
  - intros H. inversion H; subst; clear H. rewrite Hpid.
    repeat split; try reflexivity; try (intros _; exact Hpid).
Qed.

(** What a resolution through the storer leaves in the request. *)
Lemma LoadCurrentUser_resolved_inv r w u r1 w1 :
  Value (reqContext r) CTXKeyUser = anyNil ->
  LoadCurrentUser r w = Ret (Some u, None, r1) w1 ->
  reqCookies r1 = reqCookies r /\ reqSession r1 = reqSession r /\
  exists pid,
    pid <> "" /\
    Value (reqContext r1) CTXKeyPID = anyString pid /\
    Value (reqContext r1) CTXKeyUser = anyUser u /\
    trace w1 = trace w ++ [EvStorer (CallLoad pid)].
Proof.
  intros Hnil H. unfold LoadCurrentUser in H. rewrite Hnil in H.
  unfold bind at 1 in H.
  destruct (LoadCurrentUserID r w) as [[[pid err] r'] w0|p w0] eqn:HID;
    [|discriminate].
  destruct (LoadCurrentUserID_inv _ _ _ _ _ _ HID)
    as (-> & -> & Hc & Hs & Hpid).
  destruct (String.length pid =? 0)%nat eqn:Hlen; [discriminate|].
  assert (Hne : pid <> "") by (intros ->; discriminate).
  specialize (Hpid Hne).
  unfold currentUser, storer_Load, storer_call, bind, ret in H.
  destruct (Load (reqContext r') pid (store w)) as [[user err] s'].
  destruct err; [discriminate|].
  inversion H; subst; clear H.
  cbn [reqContext WithContext reqCookies reqSession trace any_of_user].
  split; [exact Hc|]. split; [exact Hs|].
  exists pid. split; [exact Hne|].
  split; [rewrite Value_WithValue_other; [exact Hpid | discriminate]|].
  split; [apply Value_WithValue | reflexivity].
Qed.

(** X4. After [LoadCurrentUser] has resolved a user through the storer,
    the request it hands back carries a non-empty pid and the user in its
    context, with cookies and session as before, and the accessors that
    do not load are served from it: [CurrentUserID] and [CurrentUser]
    return that pid and that user without calling the storer. *)
Theorem LoadCurrentUser_attaches r w u r1 w1 :
  Value (reqContext r) CTXKeyUser = anyNil ->
  LoadCurrentUser r w = Ret (Some u, None, r1) w1 ->
  reqCookies r1 = reqCookies r /\ reqSession r1 = reqSession r /\
  exists pid,
    pid <> "" /\
    Value (reqContext r1) CTXKeyPID = anyString pid /\
    Value (reqContext r1) CTXKeyUser = anyUser u /\
    trace w1 = trace w ++ [EvStorer (CallLoad pid)] /\
    CurrentUserID r1 w1 = Ret (pid, None) w1 /\
    CurrentUser r1 w1 = Ret (Some u, None) w1.
Proof.
  intros Hnil H.
  destruct (LoadCurrentUser_resolved_inv r w u r1 w1 Hnil H)
    as (Hc & Hs & pid & Hne & Hpid & Huser & Htrace).
  split; [exact Hc|]. split; [exact Hs|].
  exists pid. split; [exact Hne|]. split; [exact Hpid|].
  split; [exact Huser|]. split; [exact Htrace|]. split.
  - unfold CurrentUserID. rewrite Hpid. reflexivity.
  - unfold CurrentUser. rewrite Huser. reflexivity.
Qed.

(** X5. A failed load is not remembered.  When [LoadCurrentUser] comes
    back with an error, it has called the storer once, and calling it
    again on the request it handed back calls the storer once more. *)
Theorem LoadCurrentUser_retries_after_error r w e r1 w1 :
  Value (reqContext r) CTXKeyUser = anyNil ->
  LoadCurrentUser r w = Ret (None, Some e, r1) w1 ->
  loads (trace w1) = (loads (trace w) + 1)%nat /\
  Value (reqContext r1) CTXKeyUser = anyNil /\
  loads (trace (final_world (LoadCurrentUser r1 w1)))
  = (loads (trace w) + 2)%nat.
Proof.
  intros Hnil H. unfold LoadCurrentUser in H. rewrite Hnil in H.
  unfold bind at 1 in H.
  destruct (LoadCurrentUserID r w) as [[[pid err] r'] w0|p w0] eqn:HID;
    [|discriminate].
  destruct (LoadCurrentUserID_inv _ _ _ _ _ _ HID)
    as (-> & -> & _ & _ & Hpid).
  destruct (String.length pid =? 0)%nat eqn:Hlen; [discriminate|].
  assert (Hne : pid <> "") by (intros ->; discriminate).
  assert (Huser' : Value (reqContext r') CTXKeyUser = anyNil).
  { revert HID. unfold LoadCurrentUserID, CurrentUserID, bind, ret, panic.
    destruct (Value (reqContext r) CTXKeyPID); try discriminate.
    - destruct (GetSession r SessionKey) as [p ok].
      destruct (String.length p =? 0)%nat; intros H'; inversion H'; subst.
      + exact Hnil.
      + cbn [reqContext WithContext].
        rewrite Value_WithValue_other by discriminate. exact Hnil.
    - intros H'; inversion H'; subst. exact Hnil. }
  unfold currentUser, storer_Load, storer_call, bind, ret in H.
  destruct (Load (reqContext r') pid (store w)) as [[user err] s'] eqn:HL.
  destruct err as [e'|]; [|discriminate].
  inversion H; subst; clear H. cbn [trace].
  split; [rewrite loads_app; reflexivity|].
  split; [exact Huser'|].
  unfold LoadCurrentUser. rewrite Huser'. unfold bind at 1.
  assert (Hagain' : forall w', LoadCurrentUserID r1 w' = Ret (pid, None, r1) w').
  { intros w'. unfold LoadCurrentUserID. rewrite (Hpid Hne). reflexivity. }
  rewrite Hagain'. cbv beta iota. rewrite Hlen.
  unfold currentUser, storer_Load, storer_call, bind, ret.
  cbn [store entropy trace].
  destruct (Load (reqContext r1) pid s') as [[user2 err2] s2].
  destruct err2; cbn [final_world trace]; rewrite !loads_app; cbn; lia.
Qed.

End Cache.

Section Remember.

Context {U : Type} {UserU : User U}.
Context {S : Type} {Storer : ServerStorer U S}.
Context {Keys : ClientStateKeys}.

Implicit Types (w : World S) (req r : Request U).

(** The ways through [Authenticate]: [H] is rewritten with the path the
    request and the world select. *)
Ltac auth_paths req w H :=
  let cookie := fresh "cookie" in
  let rawToken := fresh "rawToken" in
  let Hget := fresh "Hget" in
  let Hdec := fresh "Hdec" in
  let Hsep := fresh "Hsep" in
  let Huse := fresh "Huse" in
  let Hent := fresh "Hent" in
  let Hadd := fresh "Hadd" in
  let Hne := fresh "Hne" in
  let e := fresh "e" in
  let s1 := fresh "s1" in
  let s2 := fresh "s2" in
  let nonce := fresh "nonce" in
  let rest := fresh "rest" in
  destruct (GetCookie req CookieRemember) as [cookie [|]] eqn:Hget;
  [ destruct (base64.DecodeString base64.URLEncoding cookie)
      as [rawToken|] eqn:Hdec;
    [ destruct (in_dec Byte.byte_eq_dec ";"%byte rawToken) as [Hsep|Hsep];
      [ destruct (UseRememberToken (cookiePID rawToken)
                    (cookieHash rawToken) (store w)) as [[e|] s1] eqn:Huse;
        [ destruct (error_not_found_dec e) as [->|Hne];
          [ rewrite (Authenticate_not_found req w cookie rawToken
                       Hget Hdec Hsep s1 Huse) in H
          | rewrite (Authenticate_use_error req w cookie rawToken
                       Hget Hdec Hsep s1 e Huse Hne) in H ]
        | destruct (entropy w) as [|[nonce|e] rest] eqn:Hent;
          [ rewrite (Authenticate_rand_exhausted req w cookie rawToken
                       Hget Hdec Hsep s1 Huse Hent) in H
          | destruct (AddRememberToken (cookiePID rawToken)
                        (cookieHash (rawTokenOf (cookiePID rawToken) nonce))
                        s1) as [[e|] s2] eqn:Hadd;
            [ rewrite (Authenticate_add_error req w cookie rawToken
                         Hget Hdec Hsep s1 nonce rest e s2 Huse Hent Hadd)
                in H
            | rewrite (Authenticate_rotates req w cookie rawToken
                         Hget Hdec Hsep s1 nonce rest s2 Huse Hent Hadd)
                in H ]
          | rewrite (Authenticate_rand_error req w cookie rawToken
                       Hget Hdec Hsep s1 e rest Huse Hent) in H ] ]
      | rewrite (Authenticate_no_separator req w cookie rawToken
                   Hget Hdec Hsep) in H ]
    | rewrite (Authenticate_undecodable req w cookie Hget Hdec) in H ]
  | rewrite (Authenticate_no_cookie req w) in H
      by (rewrite Hget; reflexivity) ];
  inversion H; subst; clear H.

Lemma cookiePID_no_separator (rawToken : list byte) :
  In ";"%byte rawToken ->
  ~ In ";"%byte (list_byte_of_string (cookiePID rawToken)).
Proof.
  intros Hin.
  destruct (first_occurrence _ _ Hin) as (a & rest & -> & Hnin).
  rewrite cookiePID_first by exact Hnin.
  rewrite list_byte_of_string_of_list_byte. exact Hnin.
Qed.

(** A token generated for a pid without separator reads back as that
    pid. *)
Lemma cookiePID_rawTokenOf (pid : string) (nonce : list byte) :
  ~ In ";"%byte (list_byte_of_string pid) ->
  cookiePID (rawTokenOf pid nonce) = pid.
Proof.
  intros Hnin. unfold rawTokenOf. cbn [app].
  rewrite cookiePID_first by exact Hnin.
  apply string_of_list_byte_of_string.
Qed.

(** An identity is established only past a successful consume of what
    the cookie holds. *)
Lemma Authenticate_identity_needs_consume req w err w' :
  Authenticate req w = Ret err w' ->
  exists evs,
    trace w' = trace w ++ evs /\
    (existsb establishes evs = true ->
     exists cookie rawToken s1,
       GetCookie req CookieRemember = (cookie, true) /\
       base64.DecodeString base64.URLEncoding cookie = Some rawToken /\
       UseRememberToken (cookiePID rawToken) (cookieHash rawToken) (store w)
       = (None, s1)).
Proof.
  intros H. auth_paths req w H;
    try (eexists; split; [unfold logged; cbn [trace]; reflexivity|];
         cbn; discriminate).
  - eexists. split; [reflexivity|]. intros _.
    exists cookie, rawToken, s1. auto.
  - exists []. split; [symmetry; apply app_nil_r | discriminate].
Qed.

(** X6. [Authenticate] establishes an identity only by rotation.  If it
    has put a session entry or a cookie, then it returns nil, the storer
    has consumed the pid and hash of the presented cookie and accepted a
    replacement hash, the pid has no [';'] in it, and what was done is the
    rotation sequence for that pid; the cookie written decodes to a token
    of that same pid whose hash is the one persisted. *)
Theorem Authenticate_establishes_only_by_rotation req w err w' :
  Authenticate req w = Ret err w' ->
  exists evs,
    trace w' = trace w ++ evs /\
    (existsb establishes evs = true ->
     err = None /\
     exists cookie rawToken s1 hash' token' rawToken',
       GetCookie req CookieRemember = (cookie, true) /\
       base64.DecodeString base64.URLEncoding cookie = Some rawToken /\
       UseRememberToken (cookiePID rawToken) (cookieHash rawToken) (store w)
       = (None, s1) /\
       AddRememberToken (cookiePID rawToken) hash' s1 = (None, store w') /\
       ~ In ";"%byte (list_byte_of_string (cookiePID rawToken)) /\
       evs = [EvStorer (CallUseRememberToken (cookiePID rawToken)
                          (cookieHash rawToken));
              EvStorer (CallAddRememberToken (cookiePID rawToken) hash');
              EvPutSession SessionKey (cookiePID rawToken);
              EvPutSession SessionHalfAuthKey "true";
              EvDelCookie CookieRemember;
              EvPutCookie CookieRemember token'] /\
       base64.DecodeString base64.URLEncoding token' = Some rawToken' /\
       cookieHash rawToken' = hash' /\
       cookiePID rawToken' = cookiePID rawToken).
Proof.
  intros H. auth_paths req w H;
    try (eexists; split; [unfold logged; cbn [trace]; reflexivity|];
         cbn; discriminate).
  - eexists. split; [reflexivity|]. intros _. split; [reflexivity|].
    exists cookie, rawToken, s1. eexists _, _, _.
    split; [reflexivity|]. split; [exact Hdec|]. split; [exact Huse|].
    cbn [store]. split; [exact Hadd|].
    split; [apply cookiePID_no_separator, Hsep|].
    split; [reflexivity|].
    split; [apply DecodeString_EncodeToString, wellFormed_URL|].
    split; [reflexivity|].
    apply cookiePID_rawTokenOf, cookiePID_no_separator, Hsep.
  - exists []. split; [symmetry; apply app_nil_r | discriminate].
Qed.

(** X7. What [Authenticate] never does.  It never loads a user and never
    deletes the tokens of a pid, and calls the storer at most twice; the
    pid it consumes under has no [';'] in it; it takes at most one answer
    from the random source; when it returns an error it has touched
    neither cookie nor session; and when it returns nil for a request
    with a remember cookie, it has deleted that cookie. *)
Theorem Authenticate_never req w err w' :
  Authenticate req w = Ret err w' ->
  exists evs,
    trace w' = trace w ++ evs /\
    (forall pid, ~ In (EvStorer (CallLoad pid)) evs) /\
    (forall pid, ~ In (EvStorer (CallDelRememberTokens pid)) evs) /\
    (List.length (filter isStorerCall evs) <= 2)%nat /\
    (forall pid hash,
        In (EvStorer (CallUseRememberToken pid hash)) evs ->
        ~ In ";"%byte (list_byte_of_string pid)) /\
    (entropy w' = entropy w \/ entropy w' = tl (entropy w)) /\
    (err <> None -> forallb isStorerCall evs = true) /\
    (err = None -> snd (GetCookie req CookieRemember) = true ->
     In (EvDelCookie CookieRemember) evs).
Proof.
  intros H.
  assert (Hpid : forall rawToken pid hash (l : list Event),
             In ";"%byte rawToken ->
             In (EvStorer (CallUseRememberToken pid hash))
                (EvStorer (CallUseRememberToken (cookiePID rawToken)
                             (cookieHash rawToken)) :: l) ->
             (forall ev, In ev l ->
                         match ev with
                         | EvStorer (CallUseRememberToken _ _) => False
                         | _ => True
                         end) ->
             ~ In ";"%byte (list_byte_of_string pid)).
  { intros rawToken pid hash l Hsep [Heq|Hin] Hl.
    - inversion Heq. apply cookiePID_no_separator, Hsep.
    - destruct (Hl _ Hin). }
  auth_paths req w H.
  all: eexists; split;
    [ first [ reflexivity
            | unfold logged; cbn [trace]; reflexivity
            | symmetry; apply app_nil_r ] |].
  all: cbn [store entropy trace logged].
  all: repeat match goal with
         | |- _ /\ _ => split
         end.
  all: try (intros pid0 Hin; cbn in Hin; intuition discriminate).
  all: try (cbn; lia).
  all: try (intros pid0 hash0 Hin; eapply Hpid; [eassumption | exact Hin |];
            intros ev Hev; cbn in Hev;
            repeat destruct Hev as [<-|Hev]; try exact I; destruct Hev).
  all: try (intros pid0 hash0 Hin; cbn in Hin; intuition discriminate).
  all: try (left; reflexivity).
  all: try (right; rewrite ?Hent; reflexivity).
  all: try (intros _; reflexivity).
  all: try (intros Hnil; congruence).
  all: try (intros _ _; cbn; auto 10).
  all: try (intros _ Hcookie; rewrite Hget in Hcookie; discriminate).
Qed.

(** X8. A rotated token cannot be replayed.  With a storer that keeps
    its contract and a replacement hash other than the consumed one, after
    [Authenticate] has rotated the token of a cookie, presenting that
    cookie again establishes no identity: no session entry and no cookie
    is written. *)
Theorem Authenticate_no_replay {View : TokenView S} req w cookie rawToken
  s1 nonce rest s2 :
  use_is_one_shot -> add_stores_pair ->
  GetCookie req CookieRemember = (cookie, true) ->
  base64.DecodeString base64.URLEncoding cookie = Some rawToken ->
  In ";"%byte rawToken ->
  UseRememberToken (cookiePID rawToken) (cookieHash rawToken) (store w)
  = (None, s1) ->
  entropy w = RandBytes nonce :: rest ->
  AddRememberToken (cookiePID rawToken)
    (cookieHash (rawTokenOf (cookiePID rawToken) nonce)) s1 = (None, s2) ->
  cookieHash (rawTokenOf (cookiePID rawToken) nonce) <> cookieHash rawToken ->
  exists w1,
    Authenticate req w = Ret None w1 /\
    forall err w2,
      Authenticate req w1 = Ret err w2 ->
      exists evs,
        trace w2 = trace w1 ++ evs /\ existsb establishes evs = false.
Proof.
  intros Hone Hstores Hget Hdec Hsep Huse Hent Hadd Hfresh.
  eexists. split; [eapply Authenticate_rotates; eassumption|].
  intros err w2 Hagain.
  destruct (Authenticate_identity_needs_consume _ _ _ _ Hagain)
    as (evs & Htrace & Hest).
  exists evs. split; [exact Htrace|].
  destruct (existsb establishes evs) eqn:E; [exfalso | reflexivity].
  destruct (Hest eq_refl) as (cookie' & raw' & s1' & Hget' & Hdec' & Huse').
  rewrite Hget in Hget'. inversion Hget'; subst cookie'.
  rewrite Hdec in Hdec'. inversion Hdec'; subst raw'.
  cbn [store] in Huse'.
  destruct (Hone _ _ _ _ Huse) as (_ & Hgone & _).
  destruct (Hstores _ _ _ _ Hadd) as (_ & Hkept).
  destruct (Hone _ _ _ _ Huse') as (Hhas & _).
  rewrite Hkept in Hhas by congruence. congruence.
Qed.

(** X9. A password reset revokes.  With a storer that keeps its
    contract, after [AfterPasswordReset] has deleted the tokens of the
    user's pid, no cookie whose token reads as that pid establishes an
    identity. *)
Theorem AfterPasswordReset_then_Authenticate {View : TokenView S}
  req (handled : bool) w u w1 s2 :
  use_is_one_shot -> del_removes_all ->
  CurrentUser req w = Ret (Some u, None) w1 ->
  DelRememberTokens (GetPID u) (store w1) = (None, s2) ->
  exists w2,
    AfterPasswordReset req handled w = Ret (false, None) w2 /\
    forall req' cookie rawToken err w3,
      GetCookie req' CookieRemember = (cookie, true) ->
      base64.DecodeString base64.URLEncoding cookie = Some rawToken ->
      cookiePID rawToken = GetPID u ->
      Authenticate req' w2 = Ret err w3 ->
      exists evs,
        trace w3 = trace w2 ++ evs /\ existsb establishes evs = false.
Proof.
  intros Hone Hdel Huser Hdeleted.
  eexists. split.
  - unfold AfterPasswordReset, bind. rewrite Huser.
    unfold DelCookie, Infof, emit, storer_DelRememberTokens, storer_call, ret.
    cbn [store entropy trace]. rewrite Hdeleted. reflexivity.
  - intros req' cookie rawToken err w3 Hget Hdec Hpid Hauth.
    destruct (Authenticate_identity_needs_consume _ _ _ _ Hauth)
      as (evs & Htrace & Hest).
    exists evs. split; [exact Htrace|].
    destruct (existsb establishes evs) eqn:E; [exfalso | reflexivity].
    destruct (Hest eq_refl) as (cookie' & raw' & s1' & Hget' & Hdec' & Huse').
    rewrite Hget in Hget'. inversion Hget'; subst cookie'.
    rewrite Hdec in Hdec'. inversion Hdec'; subst raw'.
    cbn [store] in Huse'.
    destruct (Hone _ _ _ _ Huse') as (Hhas & _).
    destruct (Hdel _ _ _ Hdeleted) as (Hnone & _).
    rewrite Hpid, Hnone in Hhas. discriminate.
Qed.

Lemma CurrentUser_trace r w x w1 :
  CurrentUser r w = Ret x w1 ->
  entropy w1 = entropy w /\
  (trace w1 = trace w \/
   exists pid, trace w1 = trace w ++ [EvStorer (CallLoad pid)]).
Proof.
  unfold CurrentUser, CurrentUserID, currentUser, storer_Load, storer_call,
    bind, ret, panic.
  destruct (Value (reqContext r) CTXKeyUser); try discriminate.
  - destruct (Value (reqContext r) CTXKeyPID); try discriminate.
    + destruct (GetSession r SessionKey) as [pid ok].
      destruct (String.length pid =? 0)%nat.
      * intros H; inversion H; auto.
      * destruct (Load (reqContext r) pid (store w)) as [res s'].
        intros H; inversion H. cbn. split; [reflexivity|].
        right. eexists. reflexivity.
    + destruct (String.length s =? 0)%nat.
      * intros H; inversion H; auto.
      * destruct (Load (reqContext r) s (store w)) as [res s'].
        intros H; inversion H. cbn. split; [reflexivity|].
        right. eexists. reflexivity.
  - intros H; inversion H; auto.
Qed.

Lemma CurrentUserP_inv r w user w1 :
  CurrentUserP r w = Ret user w1 ->
  CurrentUser r w = Ret (Some user, None) w1.
Proof.
  unfold CurrentUserP, bind, ret, panic.
  destruct (CurrentUser r w) as [[[i|] [e|]] w0|p w0]; try discriminate.
  intros H; inversion H. reflexivity.
Qed.

Lemma remember_events (pre post : list Event) :
  pre = [] \/ (exists pid, pre = [EvStorer (CallLoad pid)]) ->
  (forall ev, In ev post ->
              match ev with
              | EvStorer (CallAddRememberToken _ _) | EvPutCookie _ _ => True
              | _ => False
              end) ->
  (forall k v, ~ In (EvPutSession k v) (pre ++ post)) /\
  (forall k, ~ In (EvDelCookie k) (pre ++ post)) /\
  (forall pid hash,
      ~ In (EvStorer (CallUseRememberToken pid hash)) (pre ++ post)) /\
  (forall pid, ~ In (EvStorer (CallDelRememberTokens pid)) (pre ++ post)) /\
  (forall k v, In (EvPutCookie k v) (pre ++ post) -> In (EvPutCookie k v) post).
Proof.
  intros Hpre Hpost.
  assert (Hin : forall ev, In ev (pre ++ post) ->
                           (exists pid, ev = EvStorer (CallLoad pid)) \/
                           In ev post).
  { intros ev Hev. apply in_app_or in Hev. destruct Hev as [Hev|Hev]; auto.
    destruct Hpre as [->|[pid ->]]; [destruct Hev|].
    destruct Hev as [<-|[]]. left. eexists. reflexivity. }
  repeat split.
  - intros k v H. destruct (Hin _ H) as [[pid E]|E]; [discriminate|].
    exact (Hpost _ E).
  - intros k H. destruct (Hin _ H) as [[pid E]|E]; [discriminate|].
    exact (Hpost _ E).
  - intros pid hash H. destruct (Hin _ H) as [[pid' E]|E]; [discriminate|].
    exact (Hpost _ E).
  - intros pid H. destruct (Hin _ H) as [[pid' E]|E]; [discriminate|].
    exact (Hpost _ E).
  - intros k v H. destruct (Hin _ H) as [[pid E]|E]; [discriminate|exact E].
Qed.

(** X10. What [RememberAfterAuth] writes.  It never writes a session
    entry, never deletes a cookie and never consumes or deletes tokens.
    When it writes a cookie, it returns no error, the cookie is the
    remember cookie, and its value decodes to a token built on the user's
    pid whose hash the storer has accepted under that pid. *)
Theorem RememberAfterAuth_cookie_matches_hash req (handled : bool) w h e w' :
  RememberAfterAuth req handled w = Ret (h, e) w' ->
  exists evs,
    trace w' = trace w ++ evs /\
    (forall k v, ~ In (EvPutSession k v) evs) /\
    (forall k, ~ In (EvDelCookie k) evs) /\
    (forall pid hash, ~ In (EvStorer (CallUseRememberToken pid hash)) evs) /\
    (forall pid, ~ In (EvStorer (CallDelRememberTokens pid)) evs) /\
    (forall k v,
        In (EvPutCookie k v) evs ->
        e = None /\ k = CookieRemember /\
        exists user w1 nonce,
          CurrentUser req w = Ret (Some user, None) w1 /\
          base64.DecodeString base64.URLEncoding v
          = Some (rawTokenOf (GetPID user) nonce) /\
          In (EvStorer (CallAddRememberToken (GetPID user)
                          (cookieHash (rawTokenOf (GetPID user) nonce))))
             evs /\
          fst (AddRememberToken (GetPID user)
                 (cookieHash (rawTokenOf (GetPID user) nonce)) (store w1))
          = None).
Proof.
  intros H.
  assert (Hout : Value (reqContext req) CTXKeyRM = anyNil \/
                 Value (reqContext req) CTXKeyRM = anyBool false ->
                 exists evs,
    trace w' = trace w ++ evs /\
    (forall k v, ~ In (EvPutSession k v) evs) /\
    (forall k, ~ In (EvDelCookie k) evs) /\
    (forall pid hash, ~ In (EvStorer (CallUseRememberToken pid hash)) evs) /\
    (forall pid, ~ In (EvStorer (CallDelRememberTokens pid)) evs) /\
    (forall k v,
        In (EvPutCookie k v) evs ->
        e = None /\ k = CookieRemember /\
        exists user w1 nonce,
          CurrentUser req w = Ret (Some user, None) w1 /\
          base64.DecodeString base64.URLEncoding v
          = Some (rawTokenOf (GetPID user) nonce) /\
          In (EvStorer (CallAddRememberToken (GetPID user)
                          (cookieHash (rawTokenOf (GetPID user) nonce))))
             evs /\
          fst (AddRememberToken (GetPID user)
                 (cookieHash (rawTokenOf (GetPID user) nonce)) (store w1))
          = None)).
  { intros Hopt. rewrite RememberAfterAuth_opted_out in H by exact Hopt.
    inversion H; subst. exists []. rewrite app_nil_r.
    split; [reflexivity|].
    repeat split; intros;
      first [ intros []
            | match goal with Hin : In _ [] |- _ => destruct Hin end ]. }
  destruct (Value (reqContext req) CTXKeyRM) as [|[|]| | |] eqn:Hv;
    try (apply Hout; auto; fail).
  all: clear Hout.
  all: rewrite (RememberAfterAuth_opted_in req handled w _ Hv) in H
         by discriminate.
  all: unfold bind at 1 in H.
  all: destruct (CurrentUserP req w) as [user w1|p w1] eqn:HP;
    [|discriminate].
  all: apply CurrentUserP_inv in HP.
  all: destruct (CurrentUser_trace _ _ _ _ HP) as (_ & Hpre).
  all: assert (Hpre' : exists pre,
                  trace w1 = trace w ++ pre /\
                  (pre = [] \/ exists pid, pre = [EvStorer (CallLoad pid)]))
    by (destruct Hpre as [Hpre|[pid Hpre]];
        [ exists []; rewrite app_nil_r; auto
        | exists [EvStorer (CallLoad pid)]; split; [exact Hpre|];
          right; eexists; reflexivity ]).
  all: clear Hpre; destruct Hpre' as (pre & Htr1 & Hpre).
  all: unfold bind at 1 in H.
  all: destruct (entropy w1) as [|[nonce|err] rest] eqn:Hent;
    [ rewrite (GenerateToken_exhausted _ _ Hent) in H
    | rewrite (GenerateToken_ok _ _ _ _ Hent) in H
    | rewrite (GenerateToken_rand_error _ _ _ _ Hent) in H ];
    cbv beta iota in H.
  all: try (inversion H; subst h e w'; clear H;
            exists (pre ++ []); rewrite app_nil_r at 1;
            cbn [trace];
            (split; [exact Htr1|]);
            destruct (remember_events pre [] Hpre (fun ev Hev => match Hev with end))
              as (H1 & H2 & H3 & H4 & H5);
            repeat (split; [assumption|]);
            intros k v Hin; destruct (H5 _ _ Hin); fail).
  all: unfold storer_AddRememberToken, storer_call, bind at 1 in H;
    cbn [store entropy trace] in H.
  all: destruct (AddRememberToken (GetPID user)
                   (cookieHash (rawTokenOf (GetPID user) nonce)) (store w1))
         as [[err|] s2] eqn:Hadd.
  all: [> .. ].
  all: unfold PutCookie, emit, bind, ret in H; cbn [store entropy trace] in H;
    inversion H; subst h e w'; clear H; cbn [trace].
  all: match goal with
       | |- exists evs, (?t ++ ?a) ++ ?b = _ /\ _ => exists (pre ++ (a ++ b))
       | |- exists evs, ?t ++ ?a = _ /\ _ => exists (pre ++ a)
       end.
  all: (split; [rewrite Htr1, <- ?app_assoc; reflexivity|]).
  all: match goal with
       | |- context [In _ (?p ++ ?post)] =>
           destruct (remember_events p post Hpre) as (H1 & H2 & H3 & H4 & H5)
       end;
    [ intros ev Hev; cbn in Hev;
      repeat destruct Hev as [<-|Hev]; try exact I; destruct Hev | ].
  all: repeat (split; [assumption|]).
  all: intros k v Hin; apply H5 in Hin; cbn in Hin.
  all: repeat destruct Hin as [Hin|Hin]; try discriminate; try contradiction.
  all: inversion Hin; subst k v; clear Hin.
  all: (split; [reflexivity|]); (split; [reflexivity|]).
  all: exists user, w1, nonce.
  all: (split; [exact HP|]).
  all: (split; [apply DecodeString_EncodeToString, wellFormed_URL|]).
  all: (split; [apply in_or_app; right; left; reflexivity|]).
  all: rewrite Hadd; reflexivity.
Qed.

(** X11. Opted in without a user, the hook panics.  When the current
    user does not resolve, [RememberAfterAuth] panics with the error of
    the resolution where [AfterPasswordReset] returns it; for an anonymous
    request that is [ErrUserNotFound], and no token has been generated. *)
Theorem RememberAfterAuth_panics_without_user req (handled : bool) w (v : any U) :
  Value (reqContext req) CTXKeyRM = v ->
  v <> anyNil -> v <> anyBool false ->
  (forall i e w1,
      CurrentUser req w = Ret (i, Some e) w1 ->
      RememberAfterAuth req handled w = Panic (PanicError e) w1 /\
      AfterPasswordReset req handled w = Ret (false, Some e) w1) /\
  (Value (reqContext req) CTXKeyUser = anyNil ->
   Value (reqContext req) CTXKeyPID = anyNil ->
   fst (GetSession req SessionKey) = "" ->
   RememberAfterAuth req handled w = Panic (PanicError ErrUserNotFound) w).
Proof.
  intros Hv Hnil Hfalse.
  assert (Hpanic : forall i e w1,
             CurrentUser req w = Ret (i, Some e) w1 ->
             RememberAfterAuth req handled w = Panic (PanicError e) w1).
  { intros i e w1 Huser.
    rewrite (RememberAfterAuth_opted_in req handled w v Hv Hnil Hfalse).
    apply bind_Panic. unfold CurrentUserP, bind. rewrite Huser. reflexivity. }
  split.
  - intros i e w1 Huser. split; [eapply Hpanic; exact Huser|].
    unfold AfterPasswordReset, bind. rewrite Huser. reflexivity.
  - intros Huser Hpid Hsess. apply (Hpanic None).
    unfold CurrentUser. rewrite Huser.
    erewrite bind_Ret by (apply CurrentUserID_anonymous; assumption).
    reflexivity.
Qed.

End Remember.

(** ** The format of tokens *)

Lemma length_bigEndian (width : nat) (v : Z) :
  List.length (sha512.bigEndian width v) = width.
Proof.
  unfold sha512.bigEndian. rewrite length_map, length_rev, length_seq.
  reflexivity.
Qed.

Lemma length_Sum512 (data : list byte) :
  List.length (sha512.Sum512 data) = 64%nat.
Proof.
  unfold sha512.Sum512, sha512.list_of_digest. cbn [flat_map].
  rewrite !length_app, !length_bigEndian. reflexivity.
Qed.

Lemma length_Encode (enc : Encoding) (src : list byte) :
  List.length (Encode enc src) = (4 * ((List.length src + 2) / 3))%nat.
Proof.
  induction src as [|b0|b0 b1|b0 b1 b2 rest IH] using list_ind3;
    try reflexivity.
  cbn [Encode List.length]. rewrite IH.
  replace (S (S (S (List.length rest))) + 2)%nat
    with (1 * 3 + (List.length rest + 2))%nat by lia.
  rewrite Nat.div_add_l by lia. lia.
Qed.

Lemma length_string_of_list_ascii (l : list ascii) :
  String.length (string_of_list_ascii l) = List.length l.
Proof. induction l as [|c l IH]; cbn; [reflexivity | rewrite IH; reflexivity]. Qed.

Lemma length_list_byte_of_string (s : string) :
  List.length (list_byte_of_string s) = String.length s.
Proof.
  induction s as [|c s IH]; [reflexivity|].
  cbn [String.length]. rewrite <- IH. reflexivity.
Qed.

Lemma length_EncodeToString (enc : Encoding) (src : list byte) :
  String.length (EncodeToString enc src)
  = (4 * ((List.length src + 2) / 3))%nat.
Proof.
  unfold EncodeToString. rewrite length_string_of_list_ascii.
  apply length_Encode.
Qed.

Lemma length_readInto (buf bs : list byte) :
  List.length (readInto buf bs) = List.length buf.
Proof.
  unfold readInto. rewrite length_app, length_firstn, length_skipn. lia.
Qed.

Lemma length_rawTokenOf (pid : string) (nonce : list byte) :
  List.length (rawTokenOf pid nonce) = (String.length pid + 1 + nNonceSize)%nat.
Proof.
  unfold rawTokenOf. rewrite !length_app, length_readInto, repeat_length.
  rewrite length_list_byte_of_string. cbn [List.length]. lia.
Qed.

Lemma Encode_charset (enc : Encoding) (src : list byte) :
  wellFormed enc = true ->
  forallb (fun c => inAlphabet enc c || isPad c) (Encode enc src) = true.
Proof.
  intros Hwf.
  assert (Hs : forall v k, 0 <= k ->
             inAlphabet enc (encodeAt enc (sextet v k)) || isPad (encodeAt enc (sextet v k)) = true).
  { intros v k Hk. rewrite inAlphabet_sextet by assumption. reflexivity. }
  assert (Hp : inAlphabet enc StdPadding || isPad StdPadding = true).
  { unfold isPad. rewrite Ascii.eqb_refl. apply orb_true_r. }
  induction src as [|b0|b0 b1|b0 b1 b2 rest IH] using list_ind3.
  - reflexivity.
  - cbn [Encode forallb]. rewrite !Hs by lia. rewrite Hp. reflexivity.
  - cbn [Encode forallb]. rewrite !Hs by lia. rewrite Hp. reflexivity.
  - cbn [Encode forallb]. rewrite !Hs by lia. rewrite IH. reflexivity.
Qed.

Lemma app_inv_length {A : Type} (a b x y : list A) :
  List.length x = List.length y -> a ++ x = b ++ y -> a = b /\ x = y.
Proof.
  intros Hlen Heq.
  assert (Hab : List.length a = List.length b).
  { apply (f_equal (@List.length A)) in Heq. rewrite !length_app in Heq. lia. }
  clear Hlen. revert b Hab Heq.
  induction a as [|c a IH]; intros [|d b] Hab Heq; try discriminate.
  - auto.
  - cbn in Heq. inversion Heq; subst.
    destruct (IH b) as [-> ->]; auto.
Qed.

Section TokenFormat.

Context {U : Type} {UserU : User U}.
Context {S : Type} {Storer : ServerStorer U S}.

Implicit Types (w : World S).

(** X12. The format of what [GenerateToken] returns.  Whatever the pid
    and the answer of the random source, the raw token has the pid, the
    separator and 32 more bytes; the token is made of characters of the
    URL-safe alphabet and padding only and is [4 * ceil(n / 3)] characters
    long for a raw token of [n] bytes; the hash is 88 characters long. *)
Theorem GenerateToken_format (pid : string) w hash token w' :
  GenerateToken pid w = Ret (hash, token, None) w' ->
  String.length hash = 88%nat /\
  String.length token = (4 * ((String.length pid + 33 + 2) / 3))%nat /\
  forallb (fun c => inAlphabet URLEncoding c || isPad c)
    (list_ascii_of_string token) = true /\
  exists rawToken,
    DecodeString URLEncoding token = Some rawToken /\
    List.length rawToken = (String.length pid + 33)%nat /\
    firstn (String.length pid) rawToken = list_byte_of_string pid /\
    nth_error rawToken (String.length pid) = Some ";"%byte.
Proof.
  intros H.
  destruct (GenerateToken_inv pid w hash token w' H)
    as (nonce & rest & _ & -> & -> & _).
  split; [|split; [|split]].
  - unfold cookieHash. rewrite length_EncodeToString, length_Sum512.
    reflexivity.
  - rewrite length_EncodeToString, length_rawTokenOf.
    unfold nNonceSize. f_equal. f_equal. lia.
  - unfold EncodeToString. rewrite list_ascii_of_string_of_list_ascii.
    apply Encode_charset, wellFormed_URL.
  - exists (rawTokenOf pid nonce).
    split; [apply DecodeString_EncodeToString, wellFormed_URL|].
    split; [rewrite length_rawTokenOf; unfold nNonceSize; lia|].
    unfold rawTokenOf. rewrite <- length_list_byte_of_string. split.
    + apply firstn_prefix.
    + rewrite nth_error_app2 by lia. rewrite Nat.sub_diag. reflexivity.
Qed.

(** X13. Tokens are unambiguous.  Two runs of [GenerateToken] that
    return the same token were made for the same pid, also for pids with
    a [';'] in them, and return the same hash. *)
Theorem GenerateToken_injective (pid1 pid2 : string) w1 w2
  hash1 hash2 token w1' w2' :
  GenerateToken pid1 w1 = Ret (hash1, token, None) w1' ->
  GenerateToken pid2 w2 = Ret (hash2, token, None) w2' ->
  pid1 = pid2 /\ hash1 = hash2.
Proof.
  intros H1 H2.
  destruct (GenerateToken_inv _ _ _ _ _ H1)
    as (nonce1 & rest1 & _ & -> & Ht1 & _).
  destruct (GenerateToken_inv _ _ _ _ _ H2)
    as (nonce2 & rest2 & _ & -> & Ht2 & _).
  assert (Hraw : rawTokenOf pid1 nonce1 = rawTokenOf pid2 nonce2).
  { assert (Hd : Some (rawTokenOf pid1 nonce1) = Some (rawTokenOf pid2 nonce2)).
    { rewrite <- (DecodeString_EncodeToString URLEncoding wellFormed_URL
                    (rawTokenOf pid1 nonce1)).
      rewrite <- (DecodeString_EncodeToString URLEncoding wellFormed_URL
                    (rawTokenOf pid2 nonce2)).
      rewrite <- Ht1, <- Ht2. reflexivity. }
    inversion Hd. reflexivity. }
  split; [|rewrite Hraw; reflexivity].
  unfold rawTokenOf in Hraw.
  apply app_inv_length in Hraw.
  - destruct Hraw as [Hpid _].
    rewrite <- (string_of_list_byte_of_string pid1),
      <- (string_of_list_byte_of_string pid2), Hpid.
    reflexivity.
  - cbn [app List.length]. rewrite !length_readInto. reflexivity.
Qed.

End TokenFormat.

Section Panicking.

Context {U : Type} {UserU : User U}.
Context {S : Type} {Storer : ServerStorer U S}.
Context {Keys : ClientStateKeys}.

Implicit Types (w : World S) (req r : Request U).

(** X14. For an anonymous request each of the four panicking accessors
    panics with [ErrUserNotFound], and none of them has called the
    storer. *)
Theorem anonymous_panics r w :
  Value (reqContext r) CTXKeyUser = anyNil ->
  Value (reqContext r) CTXKeyPID = anyNil ->
  fst (GetSession r SessionKey) = "" ->
  CurrentUserIDP r w = Panic (PanicError ErrUserNotFound) w /\
  CurrentUserP r w = Panic (PanicError ErrUserNotFound) w /\
  LoadCurrentUserIDP r w = Panic (PanicError ErrUserNotFound) w /\
  LoadCurrentUserP r w = Panic (PanicError ErrUserNotFound) w.
Proof.
  intros Huser Hpid Hsess.
  pose proof (CurrentUserID_anonymous r w Hpid Hsess) as Hid.
  assert (Hlid : LoadCurrentUserID r w = Ret ("", None, r) w).
  { unfold LoadCurrentUserID. rewrite Hpid.
    erewrite bind_Ret by exact Hid. reflexivity. }
  assert (Hcu : CurrentUser r w = Ret (None, Some ErrUserNotFound) w).
  { unfold CurrentUser. rewrite Huser.
    erewrite bind_Ret by exact Hid. reflexivity. }
  assert (Hlcu : LoadCurrentUser r w = Ret (None, None, r) w).
  { unfold LoadCurrentUser. rewrite Huser.
    erewrite bind_Ret by exact Hlid. reflexivity. }
  repeat split.
  - unfold CurrentUserIDP. erewrite bind_Ret by exact Hid. reflexivity.
  - unfold CurrentUserP. erewrite bind_Ret by exact Hcu. reflexivity.
  - unfold LoadCurrentUserIDP. erewrite bind_Ret by exact Hlid. reflexivity.
  - unfold LoadCurrentUserP. erewrite bind_Ret by exact Hlcu. reflexivity.
Qed.

(** X15. After [LoadCurrentUserP] has resolved a user through the
    storer, the request it hands back serves all four panicking accessors
    from the context: each returns the user or the pid attached, calls no
    storer and changes the request no further. *)
Theorem LoadCurrentUserP_then_cached r w u r1 w1 :
  Value (reqContext r) CTXKeyUser = anyNil ->
  LoadCurrentUserP r w = Ret (u, r1) w1 ->
  exists pid,
    Value (reqContext r1) CTXKeyPID = anyString pid /\
    CurrentUserIDP r1 w1 = Ret pid w1 /\
    CurrentUserP r1 w1 = Ret u w1 /\
    LoadCurrentUserIDP r1 w1 = Ret (pid, r1) w1 /\
    LoadCurrentUserP r1 w1 = Ret (u, r1) w1.
Proof.
  intros Hnil H.
  assert (Hload : LoadCurrentUser r w = Ret (Some u, None, r1) w1).
  { revert H. unfold LoadCurrentUserP, bind, ret, panic.
    destruct (LoadCurrentUser r w) as [[[[u'|] [e|]] r'] w0|p w0];
      try discriminate.
    intros H; inversion H. reflexivity. }
  destruct (LoadCurrentUser_resolved_inv r w u r1 w1 Hnil Hload)
    as (_ & _ & pid & Hne & Hpid & Huser & _).
  assert (Hlen : (String.length pid =? 0)%nat = false).
  { destruct pid; [congruence | reflexivity]. }
  assert (Hid : CurrentUserID r1 w1 = Ret (pid, None) w1).
  { unfold CurrentUserID. rewrite Hpid. reflexivity. }
  assert (Hcu : CurrentUser r1 w1 = Ret (Some u, None) w1).
  { unfold CurrentUser. rewrite Huser. reflexivity. }
  exists pid. split; [exact Hpid|].
  repeat split.
  - unfold CurrentUserIDP. erewrite bind_Ret by exact Hid.
    cbv beta iota. rewrite Hlen. reflexivity.
  - unfold CurrentUserP. erewrite bind_Ret by exact Hcu. reflexivity.
  - unfold LoadCurrentUserIDP, LoadCurrentUserID. rewrite Hpid.
    unfold bind, ret. rewrite Hlen. reflexivity.
  - unfold LoadCurrentUserP.
    erewrite bind_Ret by (apply LoadCurrentUser_cached; exact Huser).
    reflexivity.
Qed.

End Panicking.

Lemma existsb_filter_pid (p h pid : string) (l : list (string * string)) :
  existsb (Mem.sameToken p h)
    (filter (fun t => negb (String.eqb (fst t) pid)) l)
  = existsb (Mem.sameToken p h) l && negb (String.eqb p pid).
Proof.
  induction l as [|[p' h'] l IH]; [reflexivity|].
  cbn [filter existsb fst].
  destruct (String.eqb p' pid) eqn:E1; cbn [negb existsb]; rewrite IH;
    change (Mem.sameToken p h (p', h'))
      with (String.eqb p' p && String.eqb h' h);
    destruct (String.eqb p' p) eqn:E2; destruct (String.eqb h' h);
    destruct (String.eqb p pid) eqn:E3; cbn;
    rewrite ?andb_true_r, ?andb_false_r; try reflexivity;
    repeat match goal with
      | E : String.eqb _ _ = true |- _ => apply String.eqb_eq in E
      | E : String.eqb _ _ = false |- _ => apply String.eqb_neq in E
      end;
    congruence.
Qed.

Lemma Mem_del_removes_all :
  del_removes_all (Storer := Mem.MemStorer) (View := Mem.MemView).
Proof.
  intros pid s s' H. cbn in H. unfold Mem.memDel in H.
  destruct (Mem.offline s); [discriminate|].
  inversion H; subst; clear H. cbn [hasToken Mem.MemView Mem.tokens].
  split.
  - intros h. rewrite existsb_filter_pid, String.eqb_refl.
    apply andb_false_r.
  - intros p h Hne. rewrite existsb_filter_pid.
    destruct (String.eqb_spec p pid); [contradiction|].
    apply andb_true_r.
Qed.

(** ** The further properties at work on the in-memory storer *)

Lemma anonymous_CurrentUser_vs_LoadCurrentUser_example :
  CurrentUser anonymous (world store42 [])
  = Ret (None, Some ErrUserNotFound) (world store42 []) /\
  LoadCurrentUser anonymous (world store42 [])
  = Ret (None, None, anonymous) (world store42 []).
Proof.
  apply (anonymous_CurrentUser_vs_LoadCurrentUser (Keys := keys)
           anonymous (world store42 []));
    reflexivity.
Defined.

Lemma CurrentUser_loads_every_time_example :
  exists w1,
    CurrentUser (withSession "u42") (world store42 [])
    = Ret (Some u42, None) w1 /\
    loads (trace (final_world (CurrentUser (withSession "u42") w1))) = 2%nat.
Proof.
  eexists.
  apply (CurrentUser_loads_every_time (Keys := keys) (withSession "u42")
           (world store42 []) "u42" (Some u42, None) store42);
    [reflexivity | reflexivity | discriminate | reflexivity].
Defined.

Lemma LoadCurrentUserID_caches_example :
  exists r1,
    LoadCurrentUserID (withSession "u42") (world store42 [])
    = Ret ("u42", None, r1) (world store42 []) /\
    Value (reqContext r1) CTXKeyPID = anyString "u42" /\
    LoadCurrentUserID r1 (world store42 [])
    = Ret ("u42", None, r1) (world store42 []).
Proof.
  eexists. split; [reflexivity|].
  edestruct (LoadCurrentUserID_caches (Keys := keys) (withSession "u42")
               (world store42 []))
    as (_ & _ & _ & _ & _ & Hpid & _ & Hagain); [reflexivity|].
  split; [apply Hpid; discriminate | exact Hagain].
Defined.

Lemma LoadCurrentUser_attaches_example :
  exists r1 w1,
    LoadCurrentUser (withSession "u42") (world store42 [])
    = Ret (Some u42, None, r1) w1 /\
    Value (reqContext r1) CTXKeyUser = anyUser u42 /\
    CurrentUser r1 w1 = Ret (Some u42, None) w1.
Proof.
  eexists _, _. split; [vm_compute; reflexivity|].
  edestruct (LoadCurrentUser_attaches (Keys := keys) (withSession "u42")
               (world store42 []) u42)
    as (_ & _ & pid & _ & _ & Huser & _ & _ & Hcu);
    [reflexivity | vm_compute; reflexivity |].
  split; [exact Huser | exact Hcu].
Defined.

Lemma LoadCurrentUser_retries_after_error_example :
  exists r1 w1,
    LoadCurrentUser (withSession "u42") (world offline42 [])
    = Ret (None, Some errOffline, r1) w1 /\
    loads (trace (final_world (LoadCurrentUser r1 w1))) = 2%nat.
Proof.
  eexists _, _. split; [vm_compute; reflexivity|].
  edestruct (LoadCurrentUser_retries_after_error (Keys := keys)
               (withSession "u42") (world offline42 []) errOffline)
    as (_ & _ & Hloads); [reflexivity | vm_compute; reflexivity |].
  exact Hloads.
Defined.

Lemma Authenticate_establishes_only_by_rotation_example :
  exists w' evs,
    Authenticate (withCookie token42) (world store42 [RandBytes otherNonce])
    = Ret None w' /\
    trace w' = evs /\ existsb establishes evs = true /\
    exists rawToken',
      cookiePID rawToken' = "u42" /\
      In (EvStorer (CallAddRememberToken "u42" (cookieHash rawToken'))) evs.
Proof.
  pose (w' := final_world (Authenticate (withCookie token42)
                             (world store42 [RandBytes otherNonce]))).
  assert (Hrun : Authenticate (withCookie token42)
                   (world store42 [RandBytes otherNonce]) = Ret None w')
    by (vm_compute; reflexivity).
  destruct (Authenticate_establishes_only_by_rotation (Keys := keys)
              _ _ _ _ Hrun) as (evs & Htrace & Hest).
  cbn [world trace app] in Htrace.
  exists w', evs. split; [exact Hrun|]. split; [exact Htrace|].
  assert (He : existsb establishes evs = true).
  { rewrite <- Htrace. vm_compute. reflexivity. }
  split; [exact He|].
  destruct (Hest He)
    as (_ & cookie & raw & s1 & hash' & token' & raw' & Hget & Hdec & _ & _
        & _ & Hevs & _ & Hhash & Hpid).
  assert (Hc : cookie = token42) by (inversion Hget; reflexivity).
  subst cookie. rewrite token42_decodes in Hdec. inversion Hdec; subst raw.
  exists raw'. split.
  - rewrite Hpid. vm_compute. reflexivity.
  - rewrite Hevs, Hhash. right. left.
    replace (cookiePID raw42) with "u42" by (vm_compute; reflexivity).
    reflexivity.
Defined.

Lemma Authenticate_never_example :
  exists w' evs,
    Authenticate (withCookie token42) (world full42 [RandBytes otherNonce])
    = Ret (Some (Wrap errFull "failed to save me token")) w' /\
    trace w' = evs /\
    forallb isStorerCall evs = true /\
    (List.length (filter isStorerCall evs) <= 2)%nat.
Proof.
  pose (w' := final_world (Authenticate (withCookie token42)
                             (world full42 [RandBytes otherNonce]))).
  assert (Hrun : Authenticate (withCookie token42)
                   (world full42 [RandBytes otherNonce])
                 = Ret (Some (Wrap errFull "failed to save me token")) w')
    by (vm_compute; reflexivity).
  destruct (Authenticate_never (Keys := keys) _ _ _ _ Hrun)
    as (evs & Htrace & _ & _ & Hcalls & _ & _ & Herr & _).
  cbn [world trace app] in Htrace.
  exists w', evs. split; [exact Hrun|]. split; [exact Htrace|].
  split; [apply Herr; discriminate | exact Hcalls].
Defined.

Lemma Authenticate_no_replay_example :
  exists w1,
    Authenticate (withCookie token42) (world store42 [RandBytes otherNonce])
    = Ret None w1 /\
    forall err w2,
      Authenticate (withCookie token42) w1 = Ret err w2 ->
      exists evs,
        trace w2 = trace w1 ++ evs /\ existsb establishes evs = false.
Proof.
  apply (Authenticate_no_replay (Keys := keys) (View := MemView)
           (withCookie token42) (world store42 [RandBytes otherNonce])
           token42 raw42 fresh42 otherNonce []
           (mkStore [u42]
              [("u42", cookieHash (rawTokenOf "u42" otherNonce))]
              false false)
           Mem_use_is_one_shot Mem_add_stores_pair
           eq_refl token42_decodes separator_in_raw42).
  - vm_compute. reflexivity.
  - reflexivity.
  - vm_compute. reflexivity.
  - apply String.eqb_neq. vm_compute. reflexivity.
Defined.

Lemma AfterPasswordReset_then_Authenticate_example :
  exists w2,
    AfterPasswordReset (withSession "u42") false (world store42 [])
    = Ret (false, None) w2 /\
    forall err w3,
      Authenticate (withCookie token42) w2 = Ret err w3 ->
      exists evs,
        trace w3 = trace w2 ++ evs /\ existsb establishes evs = false.
Proof.
  destruct (AfterPasswordReset_then_Authenticate (Keys := keys)
              (View := MemView) (withSession "u42") false
              (world store42 []) u42
              (logged (world store42 []) [EvStorer (CallLoad "u42")])
              fresh42 Mem_use_is_one_shot Mem_del_removes_all)
    as (w2 & Hreset & Hafter).
  - vm_compute. reflexivity.
  - vm_compute. reflexivity.
  - exists w2. split; [exact Hreset|].
    intros err w3 Hauth.
    apply (Hafter (withCookie token42) token42 raw42 err w3 eq_refl
             token42_decodes);
      [vm_compute; reflexivity | exact Hauth].
Defined.

Lemma RememberAfterAuth_cookie_matches_hash_example :
  exists w' evs,
    RememberAfterAuth (withFlag (anyBool true) "u42") false
      (world fresh42 [RandBytes zeroNonce])
    = Ret (false, None) w' /\
    trace w' = evs /\
    (forall k v, ~ In (EvPutSession k v) evs) /\
    In (EvPutCookie "rm" token42) evs /\
    In (EvStorer (CallAddRememberToken "u42" hash42)) evs.
Proof.
  pose (w' := final_world (RememberAfterAuth (withFlag (anyBool true) "u42")
                             false (world fresh42 [RandBytes zeroNonce]))).
  assert (Hrun : RememberAfterAuth (withFlag (anyBool true) "u42") false
                   (world fresh42 [RandBytes zeroNonce])
                 = Ret (false, None) w')
    by (vm_compute; reflexivity).
  destruct (RememberAfterAuth_cookie_matches_hash (Keys := keys)
              _ _ _ _ _ _ Hrun) as (evs & Htrace & Hsess & _).
  cbn [world trace app] in Htrace.
  exists w', evs. split; [exact Hrun|]. split; [exact Htrace|].
  split; [exact Hsess|].
  rewrite <- Htrace. split; vm_compute; auto.
Defined.

Lemma RememberAfterAuth_panics_without_user_example :
  RememberAfterAuth (mkRequest [(CTXKeyRM, anyBool true)] None None) false
    (world store42 [RandBytes zeroNonce])
  = Panic (PanicError ErrUserNotFound) (world store42 [RandBytes zeroNonce]) /\
  RememberAfterAuth (withFlag (anyString "yes") "u42") false
    (world offline42 [RandBytes zeroNonce])
  = Panic (PanicError errOffline)
      (logged (world offline42 [RandBytes zeroNonce])
         [EvStorer (CallLoad "u42")]).
Proof.
  split.
  - apply (proj2 (RememberAfterAuth_panics_without_user (Keys := keys)
                    (mkRequest [(CTXKeyRM, anyBool true)] None None) false
                    (world store42 [RandBytes zeroNonce]) (anyBool true)
                    eq_refl ltac:(discriminate) ltac:(discriminate)));
      reflexivity.
  - apply (proj1 (RememberAfterAuth_panics_without_user (Keys := keys)
                    (withFlag (anyString "yes") "u42") false
                    (world offline42 [RandBytes zeroNonce])
                    (anyString "yes")
                    eq_refl ltac:(discriminate) ltac:(discriminate))
             None).
    vm_compute. reflexivity.
Defined.

Lemma GenerateToken_format_u42 :
  GenerateToken "u42" (world fresh42 [RandBytes zeroNonce])
  = Ret (hash42, token42, None) (world fresh42 []) /\
  String.length hash42 = 88%nat /\
  String.length token42 = 48%nat.
Proof.
  assert (Hrun : GenerateToken "u42" (world fresh42 [RandBytes zeroNonce])
                 = Ret (hash42, token42, None) (world fresh42 []))
    by reflexivity.
  split; [exact Hrun|].
  destruct (GenerateToken_format "u42" _ _ _ _ Hrun) as (Hh & Ht & _).
  split; [exact Hh | exact Ht].
Defined.

Lemma GenerateToken_injective_example :
  GenerateToken "u42" (world fresh42 [RandBytes zeroNonce])
  = Ret (hash42, token42, None) (world fresh42 []) /\
  GenerateToken "u42" (world store42 [RandBytes (zeroNonce ++ [x01])])
  = Ret (hash42, token42, None) (world store42 []) /\
  hash42 = hash42.
Proof.
  assert (H1 : GenerateToken "u42" (world fresh42 [RandBytes zeroNonce])
               = Ret (hash42, token42, None) (world fresh42 []))
    by reflexivity.
  assert (H2 : GenerateToken "u42"
                 (world store42 [RandBytes (zeroNonce ++ [x01])])
               = Ret (hash42, token42, None) (world store42 []))
    by reflexivity.
  split; [exact H1|]. split; [exact H2|].
  exact (proj2 (GenerateToken_injective "u42" "u42" _ _ _ _ _ _ _ H1 H2)).
Defined.

Lemma anonymous_panics_example :
  CurrentUserIDP anonymous (world store42 [])
  = Panic (PanicError ErrUserNotFound) (world store42 []) /\
  LoadCurrentUserP anonymous (world store42 [])
  = Panic (PanicError ErrUserNotFound) (world store42 []).
Proof.
  destruct (anonymous_panics (Keys := keys) anonymous (world store42 [])
              eq_refl eq_refl eq_refl) as (H1 & _ & _ & H4).
  split; [exact H1 | exact H4].
Defined.

Lemma LoadCurrentUserP_then_cached_example :
  exists r1 w1,
    LoadCurrentUserP (withSession "u42") (world store42 []) = Ret (u42, r1) w1 /\
    CurrentUserP r1 w1 = Ret u42 w1 /\
    CurrentUserIDP r1 w1 = Ret "u42" w1.
Proof.
  eexists _, _. split; [vm_compute; reflexivity|].
  edestruct (LoadCurrentUserP_then_cached (Keys := keys) (withSession "u42")
               (world store42 []) u42)
    as (pid & Hpid & Hidp & Hup & _);
    [reflexivity | vm_compute; reflexivity |].
  split; [exact Hup|].
  assert (Hp : pid = "u42").
  { vm_compute in Hpid. inversion Hpid. reflexivity. }
  subst pid. exact Hidp.
Defined.
